(** * dyndnsr53: the DynDNS update responder and the zone-scoped Route53 provider

    A shallow embedding of [pkg/providers/route53/route53.go] (the provider
    and its zone membership check) and of [pkg/server] (the
    [dynDNSUpdateHandler] request pipeline), together with the parts of Go's
    standard library they call ([strings], [unicode/utf8],
    [encoding/base64]).

    Go strings are byte sequences: they are modelled by [string], whose
    characters are the 256 byte values. *)

From Stdlib Require Import ZArith Lia Bool Ascii.
From stdpp Require Import base gmap strings list.

Local Open Scope Z_scope.
Local Open Scope nat_scope.

#[local] Arguments String.append !s1 s2 : simpl nomatch.

(** ** Slicing *)

Abbreviation len := String.length.

(** [s[n:]] *)
Fixpoint drop_bytes (n : nat) (s : string) : string :=
  match n, s with
  | O, _ => s
  | S _, EmptyString => EmptyString
  | S n', String _ t => drop_bytes n' t
  end.

(** [s[:n]] *)
Fixpoint take_bytes (n : nat) (s : string) : string :=
  match n, s with
  | O, _ => EmptyString
  | S _, EmptyString => EmptyString
  | S n', String c t => String c (take_bytes n' t)
  end.

(** ** Package [unicode/utf8] *)
Module utf8.

Definition RuneSelf : Z := 0x80.
Definition locb : Z := 0x80.
Definition hicb : Z := 0xBF.
Definition xx : Z := 0xF1.
Definition as_ : Z := 0xF0.
Definition s1 : Z := 0x02.
Definition s2 : Z := 0x13.
Definition s3 : Z := 0x03.
Definition s4 : Z := 0x23.
Definition s5 : Z := 0x34.
Definition s6 : Z := 0x04.
Definition s7 : Z := 0x44.

Definition byte_val (c : ascii) : Z := Z.of_N (N_of_ascii c).

(** The table [first]: information about the first byte of an encoding. *)
Definition first (c : Z) : Z :=
  if (c <? 0x80)%Z then as_
  else if (c <? 0xC2)%Z then xx
  else if (c <? 0xE0)%Z then s1
  else if (c =? 0xE0)%Z then s2
  else if (c <? 0xED)%Z then s3
  else if (c =? 0xED)%Z then s4
  else if (c <? 0xF0)%Z then s3
  else if (c =? 0xF0)%Z then s5
  else if (c <? 0xF4)%Z then s6
  else if (c =? 0xF4)%Z then s7
  else xx.

(** The table [acceptRanges], as pairs [(lo, hi)]. *)
Definition acceptRanges (i : Z) : Z * Z :=
  if (i =? 0)%Z then (locb, hicb)
  else if (i =? 1)%Z then (0xA0, hicb)%Z
  else if (i =? 2)%Z then (locb, 0x9F)%Z
  else if (i =? 3)%Z then (0x90, hicb)%Z
  else if (i =? 4)%Z then (locb, 0x8F)%Z
  else (0, 0)%Z.

Definition byte_at (s : string) (i : nat) : Z :=
  match String.get i s with Some c => byte_val c | None => 0%Z end.

(** The number of bytes the loop of [RuneCountInString] advances by when
    the rune starts at the head of the non-empty [s]. *)
Definition rune_step (s : string) : nat :=
  let c := byte_at s 0 in
  if (c <? RuneSelf)%Z then 1
  else
    let x := first c in
    if (x =? xx)%Z then 1
    else
      let size := Z.to_nat (Z.land x 7) in
      if len s <? size then 1
      else
        let '(lo, hi) := acceptRanges (Z.shiftr x 4) in
        let c1 := byte_at s 1 in
        if ((c1 <? lo) || (hi <? c1))%Z then 1
        else if size =? 2 then size
        else
          let c2 := byte_at s 2 in
          if ((c2 <? locb) || (hicb <? c2))%Z then 1
          else if size =? 3 then size
          else
            let c3 := byte_at s 3 in
            if ((c3 <? locb) || (hicb <? c3))%Z then 1 else size.

Fixpoint rune_loop (fuel : nat) (s : string) : nat :=
  match fuel with
  | O => 0
  | S fuel' =>
      match s with
      | EmptyString => 0
      | String _ _ => S (rune_loop fuel' (drop_bytes (rune_step s) s))
      end
  end.

(** [utf8.RuneCountInString]: the loop runs at most [len s] times. *)
Definition RuneCountInString (s : string) : nat := rune_loop (len s) s.

End utf8.

(** ** Package [strings] *)
Module GoStrings.

(** [len(s) >= len(prefix) && s[:len(prefix)] == prefix] *)
Definition HasPrefix (s prefix : string) : bool :=
  (len prefix <=? len s) && String.eqb (take_bytes (len prefix) s) prefix.

(** [len(s) >= len(suffix) && s[len(s)-len(suffix):] == suffix] *)
Definition HasSuffix (s suffix : string) : bool :=
  (len suffix <=? len s) && String.eqb (drop_bytes (len s - len suffix) s) suffix.

Definition TrimPrefix (s prefix : string) : string :=
  if HasPrefix s prefix then drop_bytes (len prefix) s else s.

Definition TrimSuffix (s suffix : string) : string :=
  if HasSuffix s suffix then take_bytes (len s - len suffix) s else s.

(** [Index] returns the index of the first instance of [substr] in [s],
    or [-1]; [IndexFrom i] searches the tail that starts at offset [i]. *)
Fixpoint IndexFrom (i : nat) (s substr : string) : Z :=
  if HasPrefix s substr then Z.of_nat i
  else match s with
       | EmptyString => (-1)%Z
       | String _ t => IndexFrom (S i) t substr
       end.

Definition Index (s substr : string) : Z := IndexFrom 0 s substr.

Definition Contains (s substr : string) : bool := (0 <=? Index s substr)%Z.

(** The loop of [Count]: find the next instance, count it, continue
    after it. *)
Fixpoint count_loop (fuel : nat) (s substr : string) : nat :=
  match fuel with
  | O => 0
  | S fuel' =>
      let i := Index s substr in
      if (i =? -1)%Z then 0
      else S (count_loop fuel' (drop_bytes (Z.to_nat i + len substr) s) substr)
  end.

(** [Count] counts the non-overlapping instances of [substr] in [s]; for
    an empty [substr] it is one more than the number of code points. *)
Definition Count (s substr : string) : nat :=
  if len substr =? 0 then utf8.RuneCountInString s + 1
  else count_loop (S (len s)) s substr.

(** [SplitN(s, sep, 2)] for a non-empty separator: cut at the first
    instance of [sep], or the whole of [s] when there is none. *)
Definition SplitN2 (s sep : string) : list string :=
  let m := Index s sep in
  if (m <? 0)%Z then [s]
  else [take_bytes (Z.to_nat m) s; drop_bytes (Z.to_nat m + len sep) s].

End GoStrings.

(** ** Errors

    A Go [error] is modelled by its message; the [nil] error is [None]. *)
Definition error := string.

(** ** The Route53 provider ([pkg/providers/route53]) *)
Module route53.

Inductive ChangeAction := ChangeActionCreate | ChangeActionDelete | ChangeActionUpsert.
Inductive RRType := RRTypeA | RRTypeAAAA | RRTypeCname | RRTypeTxt.

Record ResourceRecord := { Value : string }.

Record ResourceRecordSet := {
  Name : string;
  Type_ : RRType;
  TTL : Z;
  ResourceRecords : list ResourceRecord
}.

Record Change := { Action : ChangeAction; ResourceRecordSet_ : ResourceRecordSet }.

Record ChangeBatch := { Changes : list Change }.

Record ChangeResourceRecordSetsInput := {
  HostedZoneId : string;
  ChangeBatch_ : ChangeBatch
}.

(** The SDK client, seen from the provider: the change requests it has
    sent so far, and how the upstream service answers a request. *)
Record Client := {
  sent : list ChangeResourceRecordSetsInput;
  upstream : ChangeResourceRecordSetsInput -> option error
}.

Definition ChangeResourceRecordSets (c : Client) (input : ChangeResourceRecordSetsInput)
  : option error * Client :=
  (upstream c input, {| sent := sent c ++ [input]; upstream := upstream c |}).

(** A provider as [NewRoute53Provider] builds it: its client is set. *)
Record Provider := {
  client : Client;
  zoneID : string;
  zoneName : string
}.

(** [validateFQDN] ensures the FQDN belongs to the configured hosted zone. *)
Definition validateFQDN (p : Provider) (fqdn : string) : option error :=
  let cleanFQDN := GoStrings.TrimSuffix fqdn "." in
  let cleanZone := GoStrings.TrimSuffix (zoneName p) "." in
  if negb (GoStrings.HasSuffix cleanFQDN ("." +:+ cleanZone))
     && negb (String.eqb cleanFQDN cleanZone)
  then Some ("FQDN " +:+ fqdn +:+ " does not belong to hosted zone " +:+ zoneName p)
  else if 1 <? GoStrings.Count cleanFQDN cleanZone
  then Some ("FQDN " +:+ fqdn +:+ " contains zone name " +:+ zoneName p +:+ " multiple times")
  else None.

(** [UpdateRecord] updates the A record for the FQDN to the IP address;
    the provider returned carries the client after the call. *)
Definition UpdateRecord (p : Provider) (fqdn ip : string) : option error * Provider :=
  if String.eqb fqdn "" || String.eqb ip ""
  then (Some "fqdn and ip must not be empty", p)
  else
    match validateFQDN p fqdn with
    | Some err => (Some err, p)
    | None =>
        let input :=
          {| HostedZoneId := zoneID p;
             ChangeBatch_ :=
               {| Changes :=
                    [ {| Action := ChangeActionUpsert;
                         ResourceRecordSet_ :=
                           {| Name := fqdn;
                              Type_ := RRTypeA;
                              TTL := 60;
                              ResourceRecords := [ {| Value := ip |} ] |} |} ] |} |} in
        let '(err, c) := ChangeResourceRecordSets (client p) input in
        (err, {| client := c; zoneID := zoneID p; zoneName := zoneName p |})
    end.

End route53.

(** ** Package [encoding/base64]: [StdEncoding] (padded, not strict) *)
Module base64.

(** [decodeMap]: the 6-bit value of a character of the standard alphabet;
    [None] stands for the table's [0xff]. *)
Definition decodeMap (c : ascii) : option Z :=
  let n := utf8.byte_val c in
  if ((65 <=? n) && (n <=? 90))%Z then Some (n - 65)%Z
  else if ((97 <=? n) && (n <=? 122))%Z then Some (n - 97 + 26)%Z
  else if ((48 <=? n) && (n <=? 57))%Z then Some (n - 48 + 52)%Z
  else if (n =? 43)%Z then Some 62%Z
  else if (n =? 47)%Z then Some 63%Z
  else None.

Definition is_newline (c : ascii) : bool :=
  let n := utf8.byte_val c in ((n =? 10) || (n =? 13))%Z.

Definition padChar : ascii := "="%char.

Fixpoint skip_newlines (src : string) : string :=
  match src with
  | String c t => if is_newline c then skip_newlines t else src
  | EmptyString => EmptyString
  end.

Definition byte_of (v : Z) : ascii := ascii_of_N (Z.to_N (Z.land v 0xFF)).

(** The end of [decodeQuantum]: four 6-bit values (missing ones are zero)
    become three bytes, of which [dlen - 1] are kept. *)
Definition quantum_bytes (dbuf : list Z) : string :=
  let d i := nth i dbuf 0%Z in
  let val := Z.lor (Z.lor (Z.lor (Z.shiftl (d 0) 18) (Z.shiftl (d 1) 12))
                          (Z.shiftl (d 2) 6)) (d 3) in
  take_bytes (length dbuf - 1)
    (String (byte_of (Z.shiftr val 16))
       (String (byte_of (Z.shiftr val 8)) (String (byte_of val) EmptyString))).

(** [Decode]: the loop over [decodeQuantum], as one pass over the input.
    [dbuf] holds the values read for the current quantum; a quantum is
    complete at four values and the next one starts empty. [None] is a
    [CorruptInputError]. *)
Fixpoint decode (src : string) (dbuf : list Z) : option string :=
  match src with
  | EmptyString =>
      match dbuf with
      | [] => Some EmptyString
      | _ => None
      end
  | String c t =>
      match decodeMap c with
      | Some out =>
          let dbuf' := dbuf ++ [out] in
          if length dbuf' =? 4
          then option_map (String.append (quantum_bytes dbuf')) (decode t [])
          else decode t dbuf'
      | None =>
          if is_newline c then decode t dbuf
          else if negb (Ascii.eqb c padChar) then None
          else
            match length dbuf with
            | 0 | 1 => None
            | 2 =>
                match skip_newlines t with
                | EmptyString => None
                | String c' t' =>
                    if negb (Ascii.eqb c' padChar) then None
                    else match skip_newlines t' with
                         | EmptyString => Some (quantum_bytes dbuf)
                         | String _ _ => None
                         end
                end
            | _ =>
                match skip_newlines t with
                | EmptyString => Some (quantum_bytes dbuf)
                | String _ _ => None
                end
            end
      end
  end.

Definition DecodeString (s : string) : option string := decode s [].

End base64.

(** ** Package [provider]: the capability interface *)
Module provider.

(** [UpdateRecord] returns [None] on success or the error, together with
    the provider after the call (providers are used through pointers). *)
Class Provider (P : Type) := {
  UpdateRecord : P -> string -> string -> option error * P
}.

End provider.

#[export] Instance route53_Provider : provider.Provider route53.Provider :=
  {| provider.UpdateRecord := route53.UpdateRecord |}.

(** ** Package [net/http], as far as the handler uses it *)
Module http.

Definition StatusOK : Z := 200.
Definition StatusBadRequest : Z := 400.
Definition StatusUnauthorized : Z := 401.
Definition StatusMethodNotAllowed : Z := 405.
Definition MethodGet : string := "GET".

(** A request as the server hands it to a handler: the header map (keys
    in canonical form) and the parsed query of the URL. *)
Record Request := {
  Method : string;
  Header : gmap string (list string);
  URL_Query : gmap string (list string);
  RemoteAddr : string
}.

(** [Header.Get] and [url.Values.Get]: the first value of the key, or the
    empty string. *)
Definition Get (m : gmap string (list string)) (key : string) : string :=
  match m !! key with
  | Some (v :: _) => v
  | _ => EmptyString
  end.

(** A response writer (the recorder of [net/http/httptest]): the status
    line is fixed by the first [WriteHeader], or as 200 by the first
    [Write]. *)
Record ResponseWriter := {
  Code : Z;
  wroteHeader : bool;
  Body : string
}.

Definition NewRecorder : ResponseWriter :=
  {| Code := 200; wroteHeader := false; Body := EmptyString |}.

Definition WriteHeader (w : ResponseWriter) (code : Z) : ResponseWriter :=
  if wroteHeader w then w
  else {| Code := code; wroteHeader := true; Body := Body w |}.

Definition Write (w : ResponseWriter) (data : string) : ResponseWriter :=
  let w' := if wroteHeader w then w else WriteHeader w 200 in
  {| Code := Code w'; wroteHeader := wroteHeader w'; Body := Body w' +:+ data |}.

End http.

(** ** Package [encoding/json]: the objects the server logs *)
Module json.

Inductive Value :=
| Str (s : string)
| Num (n : Z)
| Timestamp_ (t : Z)
| DurationString (d : Z).

Definition Object := list (string * Value).

End json.

(** ** Structured logging: [log/slog] records and [klog] entries *)
Module slog.

Inductive Level := LevelInfo | LevelWarn | LevelError.

Record Record_ := {
  level : Level;
  msg : string;
  attrs : list (string * string)
}.

End slog.

Module klog.

Record Entry := {
  msg : string;
  keysAndValues : list (string * json.Object)
}.

End klog.

(** ** The server ([pkg/server]) *)
Module server.

Import http.

Definition MsgGood : string := "good".
Definition MsgNoChg : string := "nochg".
Definition MsgBadAuth : string := "badauth".
Definition MsgNotDonator : string := "!donator".
Definition MsgNotFQDN : string := "nofqdn".
Definition MsgNoHost : string := "nohost".
Definition MsgNumHost : string := "numhost".
Definition MsgAbuse : string := "abuse".
Definition MsgBadAgent : string := "badagent".
Definition MsgDNSErr : string := "dnserr".
Definition Msg911 : string := "911".

(** [RequestLog]: a structured log entry for a request. Times are in
    nanoseconds; [Duration] is the elapsed time, which the source stores
    in its [String()] rendering. *)
Record RequestLog := {
  Timestamp : Z;
  RemoteAddr : string;
  Method : string;
  UserAgent : string;
  Username : string;
  FQDN : string;
  IP : string;
  StatusCode : Z;
  Response : string;
  ErrorMessage : string;
  Duration : Z
}.

Definition validUser : string := "user".
Definition validPassword : string := "pass".
Definition validUserAgent : string := "dyndnsr53-client".

(** [json.Marshal] on a [RequestLog], by its field tags: the fields tagged
    [omitempty] are left out when empty. Marshalling strings, an integer
    and a timestamp returns no error. *)
Definition omitempty (key value : string) : json.Object :=
  if String.eqb value "" then [] else [(key, json.Str value)].

Definition Marshal (l : RequestLog) : json.Object + error :=
  inl ([("timestamp", json.Timestamp_ (Timestamp l));
        ("remote_addr", json.Str (RemoteAddr l));
        ("method", json.Str (Method l));
        ("user_agent", json.Str (UserAgent l))]
       ++ omitempty "username" (Username l)
       ++ omitempty "fqdn" (FQDN l)
       ++ omitempty "ip" (IP l)
       ++ [("status_code", json.Num (StatusCode l));
           ("response", json.Str (Response l))]
       ++ omitempty "error_message" (ErrorMessage l)
       ++ [("duration", json.DurationString (Duration l))]).

(** The test double of [server_test.go]. *)
Record MockProvider := {
  updateCalled : bool;
  updateError : option error
}.

#[export] Instance MockProvider_Provider : provider.Provider MockProvider :=
  {| provider.UpdateRecord := fun m _ _ =>
       (updateError m, {| updateCalled := true; updateError := updateError m |}) |}.

Section Handler.

Context {P : Type} `{provider.Provider P}.

(** [Server] holds the DNS provider; [None] is the [nil] interface. *)
Record Server := { provider : option P }.

Definition NewServer (p : option P) : Server := {| provider := p |}.

(** What a run of the handler reads and writes: the response writer, the
    server (with its provider's state), the two log sinks, the calls made
    to the provider's [UpdateRecord] (a trace kept for the statements about
    invocation), and the clock ([clock k] is the time of the [k]-th
    reading). *)
Record World := {
  W_w : ResponseWriter;
  W_s : Server;
  W_klog : list klog.Entry;
  W_slog : list slog.Record_;
  W_calls : list (string * string);
  W_clock : nat -> Z;
  W_ticks : nat
}.

(** A statement either panics, returns from the handler, or goes on to
    the next statement with a value. *)
Inductive Res (A : Type) :=
| Panic (reason : string)
| Returned (st : World)
| Next (a : A) (st : World).

Arguments Panic {A} reason.
Arguments Returned {A} st.
Arguments Next {A} a st.

Definition M (A : Type) := World -> Res A.

Definition ret {A} (a : A) : M A := fun st => Next a st.

Definition bind {A B} (m : M A) (f : A -> M B) : M B :=
  fun st =>
    match m st with
    | Panic r => Panic r
    | Returned st' => Returned st'
    | Next a st' => f a st'
    end.

Definition return_ {A} : M A := fun st => Returned st.

Definition panic {A} (reason : string) : M A := fun _ => Panic reason.

Notation "x <- m ;; k" := (bind m (fun x => k))
  (at level 100, m at next level, right associativity).
Notation "m ;; k" := (bind m (fun _ => k))
  (at level 100, right associativity).

Definition when (c : bool) (body : M unit) : M unit :=
  if c then body else ret tt.

(** [a || b] on conditions that may panic: [b] is evaluated only when [a]
    is false. *)
Definition or_else (a b : M bool) : M bool :=
  x <- a ;; if x then ret true else b.

(** [l[i]]: an index out of range panics. *)
Definition index (l : list string) (i : nat) : M string :=
  match l !! i with
  | Some x => ret x
  | None => panic "index out of range"
  end.

(** [time.Now()] and [time.Since(t)]: each reads the clock once. *)
Definition time_Now : M Z :=
  fun st =>
    Next (W_clock st (W_ticks st))
         {| W_w := W_w st; W_s := W_s st; W_klog := W_klog st; W_slog := W_slog st;
            W_calls := W_calls st; W_clock := W_clock st; W_ticks := S (W_ticks st) |}.

Definition time_Since (t : Z) : M Z :=
  now <- time_Now ;; ret (now - t)%Z.

Definition klog_InfoS (msg : string) (kv : list (string * json.Object)) : M unit :=
  fun st =>
    Next tt
         {| W_w := W_w st; W_s := W_s st;
            W_klog := W_klog st ++ [ {| klog.msg := msg; klog.keysAndValues := kv |} ];
            W_slog := W_slog st; W_calls := W_calls st;
            W_clock := W_clock st; W_ticks := W_ticks st |}.

(** A [*slog.Logger] made by [With]: its attributes come first in every
    record it writes. *)
Definition Logger := list (string * string).

Definition slog_log (log : Logger) (lvl : slog.Level) (msg : string)
  (args : list (string * string)) : M unit :=
  fun st =>
    Next tt
         {| W_w := W_w st; W_s := W_s st; W_klog := W_klog st;
            W_slog := W_slog st
                      ++ [ {| slog.level := lvl; slog.msg := msg; slog.attrs := log ++ args |} ];
            W_calls := W_calls st; W_clock := W_clock st; W_ticks := W_ticks st |}.

Definition w_WriteHeader (code : Z) : M unit :=
  fun st =>
    Next tt
         {| W_w := WriteHeader (W_w st) code; W_s := W_s st; W_klog := W_klog st;
            W_slog := W_slog st; W_calls := W_calls st;
            W_clock := W_clock st; W_ticks := W_ticks st |}.

(** [fmt.Fprintln(w, message)] *)
Definition Fprintln (message : string) : M unit :=
  fun st =>
    Next tt
         {| W_w := Write (W_w st) (message +:+ String "010"%char EmptyString);
            W_s := W_s st; W_klog := W_klog st;
            W_slog := W_slog st; W_calls := W_calls st;
            W_clock := W_clock st; W_ticks := W_ticks st |}.

Definition s_provider : M (option P) := fun st => Next (provider (W_s st)) st.

(** [s.provider.UpdateRecord(fqdn, ip)] on the provider [p] the server
    holds; the server holds the provider after the call. *)
Definition provider_UpdateRecord (p : P) (fqdn ip : string) : M (option error) :=
  fun st =>
    let '(err, p') := provider.UpdateRecord p fqdn ip in
    Next err
         {| W_w := W_w st; W_s := {| provider := Some p' |}; W_klog := W_klog st;
            W_slog := W_slog st; W_calls := W_calls st ++ [(fqdn, ip)];
            W_clock := W_clock st; W_ticks := W_ticks st |}.

(** The closure [logAndRespond]; [reqLog] is the request log as it stands
    at the call, [startTime] the variable it captures. *)
Definition logAndRespond (reqLog : RequestLog) (startTime : Z)
  (statusCode : Z) (message errorMsg : string) : M unit :=
  d <- time_Since startTime ;;
  let reqLog :=
    {| Timestamp := Timestamp reqLog; RemoteAddr := RemoteAddr reqLog;
       Method := Method reqLog; UserAgent := UserAgent reqLog;
       Username := Username reqLog; FQDN := FQDN reqLog; IP := IP reqLog;
       StatusCode := statusCode; Response := message; ErrorMessage := errorMsg;
       Duration := d |} in
  match Marshal reqLog with
  | inl logData => klog_InfoS "DynDNS request" [("request", logData)]
  | inr _ => ret tt
  end ;;
  when (negb (statusCode =? StatusOK)%Z) (w_WriteHeader statusCode) ;;
  Fprintln message.

Definition dynDNSUpdateHandler (r : Request) : M unit :=
  startTime <- time_Now ;;
  let reqLog :=
    {| Timestamp := startTime; RemoteAddr := http.RemoteAddr r;
       Method := http.Method r; UserAgent := Get (Header r) "User-Agent";
       Username := ""; FQDN := ""; IP := ""; StatusCode := 0; Response := "";
       ErrorMessage := ""; Duration := 0 |} in
  let log : Logger := [("remote", http.RemoteAddr r)] in
  (* Check User-Agent *)
  let ua := Get (Header r) "User-Agent" in
  when (String.eqb ua "" || negb (GoStrings.Contains ua validUserAgent))
    (slog_log log slog.LevelWarn "bad user agent" [("user-agent", ua)] ;;
     logAndRespond reqLog startTime StatusBadRequest MsgBadAgent "invalid user agent" ;;
     return_) ;;
  (* Check HTTP method (should be GET) *)
  when (negb (String.eqb (http.Method r) MethodGet))
    (slog_log log slog.LevelWarn "bad method" [("method", http.Method r)] ;;
     logAndRespond reqLog startTime StatusMethodNotAllowed MsgBadAgent "method not allowed" ;;
     return_) ;;
  (* Check Basic Auth *)
  let auth := Get (Header r) "Authorization" in
  when (negb (GoStrings.HasPrefix auth "Basic "))
    (slog_log log slog.LevelWarn "missing auth header" [] ;;
     logAndRespond reqLog startTime StatusUnauthorized MsgBadAuth
       "missing authorization header" ;;
     return_) ;;
  match base64.DecodeString (GoStrings.TrimPrefix auth "Basic ") with
  | None =>
      slog_log log slog.LevelWarn "bad base64 in auth header" [] ;;
      logAndRespond reqLog startTime StatusUnauthorized MsgBadAuth
        "invalid base64 in auth header" ;;
      return_
  | Some payload =>
      let parts := GoStrings.SplitN2 payload ":" in
      bad <- or_else (ret (negb (length parts =? 2)))
               (or_else (p0 <- index parts 0 ;; ret (negb (String.eqb p0 validUser)))
                        (p1 <- index parts 1 ;; ret (negb (String.eqb p1 validPassword)))) ;;
      when bad
        (p0 <- index parts 0 ;;
         slog_log log slog.LevelWarn "bad credentials" [("user", p0)] ;;
         logAndRespond reqLog startTime StatusUnauthorized MsgBadAuth "invalid credentials" ;;
         return_) ;;
      (* Set username in log *)
      p0 <- index parts 0 ;;
      (* Parse query params *)
      let fqdn := Get (URL_Query r) "hostname" in
      let ip := Get (URL_Query r) "myip" in
      let reqLog :=
        {| Timestamp := Timestamp reqLog; RemoteAddr := RemoteAddr reqLog;
           Method := Method reqLog; UserAgent := UserAgent reqLog;
           Username := p0; FQDN := fqdn; IP := ip;
           StatusCode := StatusCode reqLog; Response := Response reqLog;
           ErrorMessage := ErrorMessage reqLog; Duration := Duration reqLog |} in
      when (String.eqb fqdn "")
        (slog_log log slog.LevelWarn "missing fqdn" [] ;;
         logAndRespond reqLog startTime StatusOK MsgNotFQDN "missing hostname parameter" ;;
         return_) ;;
      when (String.eqb ip "")
        (slog_log log slog.LevelWarn "missing ip" [] ;;
         logAndRespond reqLog startTime StatusOK MsgDNSErr "missing myip parameter" ;;
         return_) ;;
      (* Use the provider to update the DNS record *)
      slog_log log slog.LevelInfo "update request" [("fqdn", fqdn); ("ip", ip)] ;;
      sp <- s_provider ;;
      match sp with
      | Some p =>
          err <- provider_UpdateRecord p fqdn ip ;;
          match err with
          | Some e =>
              slog_log log slog.LevelError "failed to update DNS record" [("error", e)] ;;
              logAndRespond reqLog startTime StatusOK MsgDNSErr ("provider error: " +:+ e) ;;
              return_
          | None => ret tt
          end ;;
          logAndRespond reqLog startTime StatusOK (MsgGood +:+ " " +:+ ip) ""
      | None =>
          (* Fallback for when no provider is configured *)
          slog_log log slog.LevelWarn
            "no provider configured, returning success without update" [] ;;
          logAndRespond reqLog startTime StatusOK (MsgGood +:+ " " +:+ ip)
            "no provider configured"
      end
  end.

(** Running the handler to its end: the world it leaves, or [None] when
    it panicked. *)
Definition serve (r : Request) (st : World) : option World :=
  match dynDNSUpdateHandler r st with
  | Panic _ => None
  | Returned st' => Some st'
  | Next _ st' => Some st'
  end.

End Handler.

Arguments Server P : clear implicits.
Arguments World P : clear implicits.
Arguments Panic {P A} reason.
Arguments Returned {P A} st.
Arguments Next {P A} a st.

End server.

(** ** Vocabulary of the specification *)

(** [sub] occurs in [s] at byte offset [i]. *)
Definition occurs_at (sub s : string) (i : nat) : Prop :=
  exists a b, s = a +:+ sub +:+ b /\ len a = i.

(** [sub] occurs at most once as a substring of [s]: any two
    occurrences are at the same offset. *)
Definition occurs_at_most_once (sub s : string) : Prop :=
  forall i j, occurs_at sub s i -> occurs_at sub s j -> i = j.

(** [sub] occurs twice in [s] without overlap: the second occurrence
    starts after the first one ends (and, for an empty [sub], at another
    offset). *)
Definition occurs_twice_apart (sub s : string) : Prop :=
  exists i j, occurs_at sub s i /\ occurs_at sub s j /\ i < j /\ i + len sub <= j.

(** Stripping one trailing dot. *)
Definition strip_dot (name : string) : string := GoStrings.TrimSuffix name ".".

(** The normalized [fqdn] is the zone's apex or a subdomain of it. *)
Definition in_zone (zone fqdn : string) : Prop :=
  fqdn = zone \/ exists label, fqdn = label +:+ "." +:+ zone.

(** The providers of [route53_test.go]: a hosted zone named [name], a
    client that has sent nothing and whose upstream accepts everything. *)
Definition idle_client : route53.Client :=
  {| route53.sent := []; route53.upstream := fun _ => None |}.

Definition zone_provider (name : string) : route53.Provider :=
  {| route53.client := idle_client; route53.zoneID := "Z1234567890";
     route53.zoneName := name |}.

(** The change request [UpdateRecord] is to send for [fqdn] and [ip]: one
    UPSERT of an A record, one value, TTL 60. *)
Definition upsert_A (zone_id fqdn ip : string) : route53.ChangeResourceRecordSetsInput :=
  {| route53.HostedZoneId := zone_id;
     route53.ChangeBatch_ :=
       {| route53.Changes :=
            [ {| route53.Action := route53.ChangeActionUpsert;
                 route53.ResourceRecordSet_ :=
                   {| route53.Name := fqdn;
                      route53.Type_ := route53.RRTypeA;
                      route53.TTL := 60;
                      route53.ResourceRecords := [ {| route53.Value := ip |} ] |} |} ] |} |}.

(** *** The responder *)
Section ResponderVocabulary.

Import http server.

Context {P : Type} `{provider.Provider P}.

(** The world a request arrives in: a fresh response writer, the server,
    nothing logged and no provider call for this request yet, the clock
    not read yet. *)
Definition start (srv : Server P) (clk : nat -> Z) : World P :=
  {| W_w := NewRecorder; W_s := srv; W_klog := []; W_slog := []; W_calls := [];
     W_clock := clk; W_ticks := 0 |}.

Definition user_agent (r : Request) : string := Get (Header r) "User-Agent".
Definition authorization (r : Request) : string := Get (Header r) "Authorization".
Definition hostname (r : Request) : string := Get (URL_Query r) "hostname".
Definition myip (r : Request) : string := Get (URL_Query r) "myip".

(** The User-Agent header contains the expected client identifier (so it
    is not empty). *)
Definition recognised_agent (r : Request) : Prop :=
  exists a b, user_agent r = a +:+ validUserAgent +:+ b.

(** The Authorization header is [Basic ] followed by the base64 encoding
    of [username:password] for the configured credentials. *)
Definition authorised (r : Request) : Prop :=
  exists enc, authorization r = "Basic " +:+ enc
              /\ base64.DecodeString enc = Some (validUser +:+ ":" +:+ validPassword).

(** The checks of the validator, in their order of precedence. *)
Inductive Check := UserAgentCheck | MethodCheck | AuthCheck | HostnameCheck | MyipCheck.

Definition rank (c : Check) : nat :=
  match c with
  | UserAgentCheck => 0
  | MethodCheck => 1
  | AuthCheck => 2
  | HostnameCheck => 3
  | MyipCheck => 4
  end.

Definition passes (r : Request) (c : Check) : Prop :=
  match c with
  | UserAgentCheck => recognised_agent r
  | MethodCheck => http.Method r = "GET"
  | AuthCheck => authorised r
  | HostnameCheck => hostname r <> ""
  | MyipCheck => myip r <> ""
  end.

(** [c] is the first check that [r] fails. *)
Definition first_failing (r : Request) (c : Check) : Prop :=
  ~ passes r c /\ forall c', rank c' < rank c -> passes r c'.

(** [r] passes every check. *)
Definition valid (r : Request) : Prop := forall c, passes r c.

(** The mapping table of the specification for the validation failures:
    HTTP status and response code. *)
Definition terminal (c : Check) : Z * string :=
  match c with
  | UserAgentCheck => (400%Z, "badagent")
  | MethodCheck => (405%Z, "badagent")
  | AuthCheck => (401%Z, "badauth")
  | HostnameCheck => (200%Z, "nofqdn")
  | MyipCheck => (200%Z, "dnserr")
  end.

(** One line of response body. *)
Definition line (message : string) : string := message +:+ String "010"%char "".

(** The response code token of a message: what stands before the first
    space. *)
Definition token (message : string) : string := hd "" (GoStrings.SplitN2 message " ").

(** What the client sees: HTTP status and body. *)
Definition response (st : World P) : Z * string := (Code (W_w st), Body (W_w st)).

(** The record a logger derived with the remote address writes. *)
Definition slog_record (r : Request) (lvl : slog.Level) (msg : string)
  (args : list (string * string)) : slog.Record_ :=
  {| slog.level := lvl; slog.msg := msg;
     slog.attrs := ("remote", http.RemoteAddr r) :: args |}.

(** The record that marks the provider stage. *)
Definition update_request (r : Request) : slog.Record_ :=
  slog_record r slog.LevelInfo "update request" [("fqdn", hostname r); ("ip", myip r)].

(** The JSON object of the request log, when the handler has come as far
    as [username], [fqdn] and [ip] say (empty: not set, or set empty). *)
Definition log_object (r : Request) (clk : nat -> Z) (username fqdn ip : string)
  (status : Z) (message errorMsg : string) : json.Object :=
  [("timestamp", json.Timestamp_ (clk 0));
   ("remote_addr", json.Str (http.RemoteAddr r));
   ("method", json.Str (http.Method r));
   ("user_agent", json.Str (user_agent r))]
  ++ omitempty "username" username
  ++ omitempty "fqdn" fqdn
  ++ omitempty "ip" ip
  ++ [("status_code", json.Num status); ("response", json.Str message)]
  ++ omitempty "error_message" errorMsg
  ++ [("duration", json.DurationString (clk 1%nat - clk 0%nat)%Z)].

(** The world after one call of [logAndRespond] on a fresh writer. *)
Definition answered (r : Request) (srv : Server P) (clk : nat -> Z)
  (logged : list slog.Record_) (calls : list (string * string))
  (username fqdn ip : string) (status : Z) (message errorMsg : string) : World P :=
  {| W_w := {| Code := status; wroteHeader := true; Body := line message |};
     W_s := srv;
     W_klog := [ {| klog.msg := "DynDNS request";
                    klog.keysAndValues :=
                      [("request", log_object r clk username fqdn ip status message errorMsg)] |} ];
     W_slog := logged;
     W_calls := calls;
     W_clock := clk;
     W_ticks := 2 |}.

(** The credentials test on the decoded payload. *)
Definition bad_credentials (payload : string) : bool :=
  let parts := GoStrings.SplitN2 payload ":" in
  negb (length parts =? 2)
  || negb (String.eqb (nth 0 parts "") validUser)
  || negb (String.eqb (nth 1 parts "") validPassword).

(** The provider stage in direct style: the world left when the request
    passed every check and [user] authenticated. *)
Definition provider_stage (r : Request) (srv : Server P) (clk : nat -> Z)
  (user : string) : World P :=
  match provider srv with
  | None =>
      answered r srv clk
        [update_request r;
         slog_record r slog.LevelWarn
           "no provider configured, returning success without update" []]
        [] user (hostname r) (myip r)
        StatusOK (MsgGood +:+ " " +:+ myip r) "no provider configured"
  | Some p =>
      let '(err, p') := provider.UpdateRecord p (hostname r) (myip r) in
      let srv' := {| provider := Some p' |} in
      match err with
      | Some e =>
          answered r srv' clk
            [update_request r;
             slog_record r slog.LevelError "failed to update DNS record" [("error", e)]]
            [(hostname r, myip r)] user (hostname r) (myip r)
            StatusOK MsgDNSErr ("provider error: " +:+ e)
      | None =>
          answered r srv' clk [update_request r]
            [(hostname r, myip r)] user (hostname r) (myip r)
            StatusOK (MsgGood +:+ " " +:+ myip r) ""
      end
  end.

(** The responder in direct style: the branch the handler takes and the
    world it leaves. [handler_run] below shows the handler computes it. *)
Definition respond (r : Request) (srv : Server P) (clk : nat -> Z) : World P :=
  let reply := answered r srv clk in
  let warn msg args := [slog_record r slog.LevelWarn msg args] in
  if String.eqb (user_agent r) "" || negb (GoStrings.Contains (user_agent r) validUserAgent)
  then reply (warn "bad user agent" [("user-agent", user_agent r)]) [] "" "" ""
         StatusBadRequest MsgBadAgent "invalid user agent"
  else if negb (String.eqb (http.Method r) MethodGet)
  then reply (warn "bad method" [("method", http.Method r)]) [] "" "" ""
         StatusMethodNotAllowed MsgBadAgent "method not allowed"
  else if negb (GoStrings.HasPrefix (authorization r) "Basic ")
  then reply (warn "missing auth header" []) [] "" "" ""
         StatusUnauthorized MsgBadAuth "missing authorization header"
  else
    match base64.DecodeString (GoStrings.TrimPrefix (authorization r) "Basic ") with
    | None =>
        reply (warn "bad base64 in auth header" []) [] "" "" ""
          StatusUnauthorized MsgBadAuth "invalid base64 in auth header"
    | Some payload =>
        let user := nth 0 (GoStrings.SplitN2 payload ":") "" in
        if bad_credentials payload
        then reply (warn "bad credentials" [("user", user)]) [] "" "" ""
               StatusUnauthorized MsgBadAuth "invalid credentials"
        else if String.eqb (hostname r) ""
        then reply (warn "missing fqdn" []) [] user (hostname r) (myip r)
               StatusOK MsgNotFQDN "missing hostname parameter"
        else if String.eqb (myip r) ""
        then reply (warn "missing ip" []) [] user (hostname r) (myip r)
               StatusOK MsgDNSErr "missing myip parameter"
        else provider_stage r srv clk user
    end.

(** The ways the Authorization header can fail. *)
Inductive auth_failure (r : Request) : Prop :=
| header_missing :
    Header r !! "Authorization" = None -> auth_failure r
| not_basic :
    (forall enc, authorization r <> "Basic " +:+ enc) -> auth_failure r
| not_base64 (enc : string) :
    authorization r = "Basic " +:+ enc ->
    base64.DecodeString enc = None -> auth_failure r
| malformed_payload (enc payload : string) :
    authorization r = "Basic " +:+ enc ->
    base64.DecodeString enc = Some payload ->
    (forall u p, payload <> u +:+ ":" +:+ p) -> auth_failure r
| wrong_credentials (enc u p : string) :
    authorization r = "Basic " +:+ enc ->
    base64.DecodeString enc = Some (u +:+ ":" +:+ p) ->
    u <> validUser \/ p <> validPassword -> auth_failure r.

(** The request of [server_test.go]: GET /nic/update with the given
    headers and query parameters, one value each. *)
Definition single_values (kvs : list (string * string)) : gmap string (list string) :=
  list_to_map (map (fun kv => (fst kv, [snd kv])) kvs).

Definition NewRequest (method : string) (query headers : list (string * string)) : Request :=
  {| http.Method := method;
     Header := single_values headers;
     URL_Query := single_values query;
     http.RemoteAddr := "192.0.2.1:1234" |}.

End ResponderVocabulary.

(** The requests and the provider of [server_test.go]. *)
Definition update_query : list (string * string) :=
  [("hostname", "test.example.com"); ("myip", "1.2.3.4")].

Definition good_request : http.Request :=
  NewRequest "GET" update_query
    [("User-Agent", server.validUserAgent); ("Authorization", "Basic dXNlcjpwYXNz")].

Definition bad_auth_request : http.Request :=
  NewRequest "GET" update_query
    [("User-Agent", server.validUserAgent); ("Authorization", "Basic YmFkOmNyZWRz")].

Definition no_hostname_request : http.Request :=
  NewRequest "GET" [("myip", "1.2.3.4")]
    [("User-Agent", server.validUserAgent); ("Authorization", "Basic dXNlcjpwYXNz")].

Definition mockProvider : server.MockProvider :=
  {| server.updateCalled := false; server.updateError := None |}.

Definition test_clock (k : nat) : Z := Z.of_nat k.

(** ** The constructor, sequences of updates and the command line *)

(** An [aws.Config], seen through the service that is reached with it:
    what [GetHostedZone] answers for a zone id (the zone's name, or an
    error) and what [ChangeResourceRecordSets] answers for a request. *)
Module aws.

Record Config := {
  GetHostedZone : string -> string + error;
  ChangeResourceRecordSets : route53.ChangeResourceRecordSetsInput -> option error
}.

End aws.

(** [route53.NewFromConfig]: a client that has sent nothing yet. *)
Definition NewFromConfig (awsCfg : aws.Config) : route53.Client :=
  {| route53.sent := []; route53.upstream := aws.ChangeResourceRecordSets awsCfg |}.

(** [NewRoute53Provider] creates a provider for a specific hosted zone. *)
Definition NewRoute53Provider (zoneID : string) (awsCfg : aws.Config)
  : route53.Provider + error :=
  if String.eqb zoneID "" then inr "zoneID must not be empty"
  else
    let client := NewFromConfig awsCfg in
    match aws.GetHostedZone awsCfg zoneID with
    | inr err => inr ("failed to get hosted zone " +:+ zoneID +:+ ": " +:+ err)
    | inl name =>
        inl {| route53.client := client;
               route53.zoneID := zoneID;
               route53.zoneName := GoStrings.TrimSuffix name "." |}
    end.

(** A sequence of [UpdateRecord] calls on one provider: the errors
    returned, in order, and the provider after the last call. *)
Fixpoint UpdateRecords (p : route53.Provider) (calls : list (string * string))
  : list (option error) * route53.Provider :=
  match calls with
  | [] => ([], p)
  | (fqdn, ip) :: rest =>
      let '(err, p1) := route53.UpdateRecord p fqdn ip in
      let '(errs, p2) := UpdateRecords p1 rest in
      (err :: errs, p2)
  end.

(** A change request the provider [p] may send: the UPSERT of an A
    record for a non-empty name its zone check accepts, with a non-empty
    value. *)
Definition zone_upsert (p : route53.Provider)
  (req : route53.ChangeResourceRecordSetsInput) : Prop :=
  exists fqdn ip,
    req = upsert_A (route53.zoneID p) fqdn ip
    /\ fqdn <> "" /\ ip <> "" /\ route53.validateFQDN p fqdn = None.

(** The [serve] command ([cmd/serve.go]). *)
Module cmd.

(** The flags of the command, as parsed. *)
Record Flags := {
  listen : string;
  provider : string;
  zone_id : string
}.

(** What the command does, in order: lines written, the start of the
    server, the exit of the process. *)
Inductive Event :=
| Stdout (text : string)
| Stderr (text : string)
| StartServer (addr : string) (s : server.Server route53.Provider)
| Exit (code : Z).

Definition newline : string := String "010"%char "".

(** The [Run] function of [serveCmd]. [LoadDefaultConfig] is the result
    of loading the AWS configuration, [StartServer_result] the error the
    server returns, if it returns, when started on an address. *)
Definition Run (flags : Flags) (LoadDefaultConfig : aws.Config + error)
  (StartServer_result : string -> option error) : list Event :=
  let addr := if String.eqb (listen flags) "" then ":8080" else listen flags in
  let providerType := provider flags in
  let zoneID := zone_id flags in
  let start (out : list Event) (p : option route53.Provider) : list Event :=
    out
    ++ [Stdout ("Starting server on " +:+ addr +:+ "..." +:+ newline);
        StartServer addr (server.NewServer p)]
    ++ match StartServer_result addr with
       | Some err => [Stderr ("Server error: " +:+ err +:+ newline); Exit 1]
       | None => []
       end in
  if String.eqb providerType "route53" then
    if String.eqb zoneID "" then
      [Stderr ("Error: --zone-id is required when using route53 provider" +:+ newline);
       Exit 1]
    else
      match LoadDefaultConfig with
      | inr err => [Stderr ("Error loading AWS config: " +:+ err +:+ newline); Exit 1]
      | inl cfg =>
          match NewRoute53Provider zoneID cfg with
          | inr err =>
              [Stderr ("Error creating Route53 provider: " +:+ err +:+ newline); Exit 1]
          | inl p =>
              start [Stdout ("Using Route53 provider with zone: " +:+ zoneID +:+ newline)]
                    (Some p)
          end
      end
  else if String.eqb providerType "none" || String.eqb providerType "" then
    start [Stdout ("No provider configured - running in test mode" +:+ newline)] None
  else
    [Stderr ("Error: unsupported provider type: " +:+ providerType +:+ newline);
     Stderr ("Supported providers: route53, none" +:+ newline);
     Exit 1].

End cmd.

(** A service with the zone of the tests: the zone id [Z1234567890] is
    named [blahonga.me.], other ids are unknown; changes are accepted. *)
Definition test_config : aws.Config :=
  {| aws.GetHostedZone := fun id =>
       if String.eqb id "Z1234567890" then inl "blahonga.me."
       else inr "NoSuchHostedZone";
     aws.ChangeResourceRecordSets := fun _ => None |}.

(** The command starts the server. *)
Definition starts_server (trace : list cmd.Event) : Prop :=
  exists addr s, In (cmd.StartServer addr s) trace.

(** The flags and the environment allow the server to start: no provider
    is asked for, or the Route53 provider with a zone id, a configuration
    that loads and a zone that is found. *)
Definition usable (flags : cmd.Flags) (LoadDefaultConfig : aws.Config + error) : Prop :=
  cmd.provider flags = "none" \/ cmd.provider flags = ""
  \/ (cmd.provider flags = "route53" /\ cmd.zone_id flags <> ""
      /\ exists cfg name, LoadDefaultConfig = inl cfg
                          /\ aws.GetHostedZone cfg (cmd.zone_id flags) = inl name).

(** The command line [serve --provider route53 --zone-id Z1234567890
    --listen ""] and the provider it builds against [test_config]. *)
Definition test_flags : cmd.Flags :=
  {| cmd.listen := ""; cmd.provider := "route53"; cmd.zone_id := "Z1234567890" |}.

Definition built_provider : route53.Provider :=
  {| route53.client := NewFromConfig test_config;
     route53.zoneID := "Z1234567890";
     route53.zoneName := "blahonga.me" |}.

(** A provider double whose update fails. *)
Definition failingProvider : server.MockProvider :=
  {| server.updateCalled := false; server.updateError := Some "boom" |}.

(** The request of the tests with one more parameter and one more
    header. *)
Definition good_request_extra : http.Request :=
  NewRequest "GET" (update_query ++ [("system", "dyndns")])
    [("User-Agent", server.validUserAgent); ("Authorization", "Basic dXNlcjpwYXNz");
     ("Accept", "*/*")].

(** * Properties *)

(** ** Strings *)

Lemma append_nil_r (s : string) : s +:+ "" = s.
Proof. induction s as [|c s IH]; simpl; [reflexivity | now rewrite IH]. Qed.

Lemma append_assoc (a b c : string) : (a +:+ b) +:+ c = a +:+ b +:+ c.
Proof. induction a as [|x a IH]; simpl; [reflexivity | now rewrite IH]. Qed.

Lemma len_append (a b : string) : len (a +:+ b) = len a + len b.
Proof. induction a as [|x a IH]; simpl; [reflexivity | now rewrite IH]. Qed.

Lemma len_zero (s : string) : len s = 0 -> s = "".
Proof. destruct s; [reflexivity | discriminate]. Qed.

Lemma take_drop (n : nat) (s : string) : take_bytes n s +:+ drop_bytes n s = s.
Proof.
  revert s; induction n as [|n IH]; intros [|c s]; simpl; try reflexivity.
  now rewrite IH.
Qed.

Lemma len_take (n : nat) (s : string) : n <= len s -> len (take_bytes n s) = n.
Proof.
  revert s; induction n as [|n IH]; intros [|c s]; simpl; intros Hn; try lia.
  rewrite IH; lia.
Qed.

Lemma take_append (a b : string) : take_bytes (len a) (a +:+ b) = a.
Proof. induction a as [|x a IH]; simpl; [now destruct b | now rewrite IH]. Qed.

Lemma drop_append (a b : string) : drop_bytes (len a) (a +:+ b) = b.
Proof. induction a as [|x a IH]; simpl; [reflexivity | exact IH]. Qed.

Lemma drop_drop (n m : nat) (s : string) :
  drop_bytes m (drop_bytes n s) = drop_bytes (n + m) s.
Proof.
  revert s; induction n as [|n IH]; intros s; simpl; [reflexivity |].
  destruct s as [|c s]; [now destruct m | apply IH].
Qed.

Lemma append_inv_len (a a' b b' : string) :
  a +:+ b = a' +:+ b' -> len a = len a' -> a = a' /\ b = b'.
Proof.
  revert a'; induction a as [|x a IH]; intros [|x' a']; simpl; intros E L;
    try discriminate; [now split |].
  injection E as -> E. destruct (IH a' E) as [-> ->]; [lia | now split].
Qed.

(** *** [HasPrefix], [HasSuffix] and the trims *)

Lemma HasPrefix_iff (s p : string) :
  GoStrings.HasPrefix s p = true <-> exists t, s = p +:+ t.
Proof.
  unfold GoStrings.HasPrefix. rewrite andb_true_iff, Nat.leb_le, String.eqb_eq. split.
  - intros [_ E]. exists (drop_bytes (len p) s). now rewrite <- E at 1; rewrite take_drop.
  - intros [t ->]. rewrite len_append, take_append. split; [lia | reflexivity].
Qed.

Lemma TrimPrefix_append (p t : string) : GoStrings.TrimPrefix (p +:+ t) p = t.
Proof.
  unfold GoStrings.TrimPrefix.
  replace (GoStrings.HasPrefix (p +:+ t) p) with true
    by (symmetry; apply HasPrefix_iff; now exists t).
  apply drop_append.
Qed.

Lemma HasSuffix_iff (s suf : string) :
  GoStrings.HasSuffix s suf = true <-> exists a, s = a +:+ suf.
Proof.
  unfold GoStrings.HasSuffix. rewrite andb_true_iff, Nat.leb_le, String.eqb_eq. split.
  - intros [_ E]. exists (take_bytes (len s - len suf) s).
    now rewrite <- E at 2; rewrite take_drop.
  - intros [a ->]. rewrite len_append.
    replace (len a + len suf - len suf) with (len a) by lia.
    rewrite drop_append. split; [lia | reflexivity].
Qed.

Lemma TrimSuffix_append (a suf : string) : GoStrings.TrimSuffix (a +:+ suf) suf = a.
Proof.
  unfold GoStrings.TrimSuffix.
  replace (GoStrings.HasSuffix (a +:+ suf) suf) with true
    by (symmetry; apply HasSuffix_iff; now exists a).
  rewrite len_append. replace (len a + len suf - len suf) with (len a) by lia.
  apply take_append.
Qed.

(** *** Occurrences and [Index] *)

Lemma occurs_at_0 (sub s : string) :
  occurs_at sub s 0 <-> GoStrings.HasPrefix s sub = true.
Proof.
  rewrite HasPrefix_iff. split.
  - intros (a & b & -> & L). apply len_zero in L; subst a. now exists b.
  - intros [t ->]. exists "", t. now split.
Qed.

Lemma occurs_at_S (sub : string) (c : ascii) (t : string) (k : nat) :
  occurs_at sub (String c t) (S k) <-> occurs_at sub t k.
Proof.
  split.
  - intros (a & b & E & L). destruct a as [|x a]; [discriminate |].
    simpl in E, L. injection E as _ ->. exists a, b. split; [reflexivity | lia].
  - intros (a & b & -> & L). exists (String c a), b. simpl. split; [reflexivity | lia].
Qed.

Lemma occurs_at_bound (sub s : string) (i : nat) :
  occurs_at sub s i -> i + len sub <= len s.
Proof. intros (a & b & -> & <-). rewrite !len_append. lia. Qed.

Lemma occurs_at_drop (sub s : string) (n m : nat) :
  n <= len s -> (occurs_at sub (drop_bytes n s) m <-> occurs_at sub s (n + m)).
Proof.
  revert s; induction n as [|n IH]; intros s Hn; simpl; [reflexivity |].
  destruct s as [|c s]; simpl in Hn; [lia |].
  rewrite occurs_at_S. apply IH. lia.
Qed.

(** [IndexFrom] finds the least offset of an occurrence, if there is one. *)
Lemma IndexFrom_spec (sub s : string) (i : nat) :
  (GoStrings.IndexFrom i s sub = (-1)%Z /\ forall k, ~ occurs_at sub s k)
  \/ (exists k, GoStrings.IndexFrom i s sub = Z.of_nat (i + k)
                /\ occurs_at sub s k
                /\ forall k', occurs_at sub s k' -> k <= k').
Proof.
  revert i; induction s as [|c t IH]; intros i; simpl.
  - destruct (GoStrings.HasPrefix "" sub) eqn:E.
    + right. exists 0. rewrite Nat.add_0_r. split; [reflexivity |].
      split; [now apply occurs_at_0 | intros; lia].
    + left. split; [reflexivity |]. intros k Hk.
      pose proof (occurs_at_bound _ _ _ Hk) as B. simpl in B.
      assert (k = 0) by lia; subst k. apply occurs_at_0 in Hk. congruence.
  - destruct (GoStrings.HasPrefix (String c t) sub) eqn:E.
    + right. exists 0. rewrite Nat.add_0_r. split; [reflexivity |].
      split; [now apply occurs_at_0 | intros; lia].
    + destruct (IH (S i)) as [[E1 N] | (k & E1 & O & Min)].
      * left. split; [exact E1 |]. intros [|k] Hk.
        -- apply occurs_at_0 in Hk. congruence.
        -- apply occurs_at_S in Hk. exact (N k Hk).
      * right. exists (S k). split; [rewrite E1; f_equal; lia |].
        split; [now apply occurs_at_S |]. intros [|k'] Hk'.
        -- apply occurs_at_0 in Hk'. congruence.
        -- apply occurs_at_S in Hk'. specialize (Min k' Hk'). lia.
Qed.

Lemma Index_spec (sub s : string) :
  (GoStrings.Index s sub = (-1)%Z /\ forall k, ~ occurs_at sub s k)
  \/ (exists k, GoStrings.Index s sub = Z.of_nat k
                /\ occurs_at sub s k
                /\ forall k', occurs_at sub s k' -> k <= k').
Proof. exact (IndexFrom_spec sub s 0). Qed.

(** [Contains] holds exactly of the strings that have [sub] inside. *)
Lemma Contains_iff (s sub : string) :
  GoStrings.Contains s sub = true <-> exists a b, s = a +:+ sub +:+ b.
Proof.
  unfold GoStrings.Contains. rewrite Z.leb_le.
  destruct (Index_spec sub s) as [[E N] | (k & E & (a & b & O & L) & _)]; rewrite E.
  - split; [lia |]. intros (a & b & ->). exfalso. apply (N (len a)). now exists a, b.
  - split; [now exists a, b | lia].
Qed.

(** *** [Count] *)

Lemma RuneCountInString_pos (c : ascii) (t : string) :
  1 <= utf8.RuneCountInString (String c t).
Proof. unfold utf8.RuneCountInString. simpl. lia. Qed.

Lemma occurs_at_empty (s : string) (i : nat) : occurs_at "" s i <-> i <= len s.
Proof.
  split.
  - intros H. apply occurs_at_bound in H. simpl in H. lia.
  - intros Hi. exists (take_bytes i s), (drop_bytes i s). simpl.
    split; [now rewrite take_drop | now apply len_take].
Qed.

Lemma count_loop_pos (fuel : nat) (s sub : string) :
  1 <= GoStrings.count_loop (S fuel) s sub <-> exists k, occurs_at sub s k.
Proof.
  simpl. destruct (Index_spec sub s) as [[E N] | (k & E & O & _)]; rewrite E.
  - simpl. split; [lia |]. intros [k Hk]. now destruct (N k).
  - replace (Z.of_nat k =? -1)%Z with false by (symmetry; apply Z.eqb_neq; lia).
    split; [now exists k | lia].
Qed.

(** [Count] exceeds one exactly when two occurrences lie apart. *)
Lemma Count_gt1_iff (s sub : string) :
  1 < GoStrings.Count s sub <-> occurs_twice_apart sub s.
Proof.
  unfold GoStrings.Count, occurs_twice_apart.
  destruct sub as [|x sub'] eqn:Esub.
  - simpl. split.
    + intros Hc. destruct s as [|c t]; [cbv in Hc; lia |].
      exists 0, 1. rewrite !occurs_at_empty. simpl. lia.
    + intros (i & j & _ & Hj & Hij & _). apply occurs_at_empty in Hj.
      destruct s as [|c t]; [simpl in Hj; lia |].
      pose proof (RuneCountInString_pos c t). lia.
  - rewrite <- Esub. assert (L : 1 <= len sub) by (subst sub; simpl; lia).
    replace (len sub =? 0) with false by (symmetry; apply Nat.eqb_neq; lia).
    clear Esub. cbn [GoStrings.count_loop].
    destruct (Index_spec sub s) as [[E N] | (k & E & O & Min)]; rewrite E.
    + simpl. split; [lia |]. intros (i & _ & Hi & _). now destruct (N i).
    + replace (Z.of_nat k =? -1)%Z with false by (symmetry; apply Z.eqb_neq; lia).
      rewrite Nat2Z.id. pose proof (occurs_at_bound _ _ _ O) as B.
      destruct (len s) as [|n] eqn:Ls; [lia |]. rewrite <- Nat.succ_lt_mono.
      change (0 < GoStrings.count_loop (S n) (drop_bytes (k + len sub) s) sub)
        with (1 <= GoStrings.count_loop (S n) (drop_bytes (k + len sub) s) sub).
      rewrite count_loop_pos. split.
      * intros [m Hm]. apply occurs_at_drop in Hm; [| lia].
        exists k, (k + len sub + m). repeat split; [exact O | exact Hm | lia | lia].
      * intros (i & j & Hi & Hj & Hij & Hap). specialize (Min i Hi).
        exists (j - (k + len sub)). apply occurs_at_drop; [lia |].
        now replace (k + len sub + (j - (k + len sub))) with j by lia.
Qed.

(** ** The zone membership check *)

Lemma in_zone_code (zone fqdn : string) :
  negb (GoStrings.HasSuffix fqdn ("." +:+ zone)) && negb (String.eqb fqdn zone) = false
  <-> in_zone zone fqdn.
Proof.
  unfold in_zone. rewrite andb_false_iff, !negb_false_iff, HasSuffix_iff, String.eqb_eq.
  tauto.
Qed.

Lemma validateFQDN_None (p : route53.Provider) (fqdn : string) :
  route53.validateFQDN p fqdn = None
  <-> in_zone (strip_dot (route53.zoneName p)) (strip_dot fqdn)
      /\ ~ 1 < GoStrings.Count (strip_dot fqdn) (strip_dot (route53.zoneName p)).
Proof.
  unfold route53.validateFQDN, strip_dot. rewrite <- in_zone_code.
  destruct (negb _ && negb _); [split; [discriminate | intros [? _]; discriminate] |].
  destruct (Nat.ltb_spec 1 (GoStrings.Count (GoStrings.TrimSuffix fqdn ".")
                              (GoStrings.TrimSuffix (route53.zoneName p) "."))).
  - split; [discriminate | intros [_ ?]; lia].
  - split; [intros _; split; [reflexivity | lia] | reflexivity].
Qed.

(** C1 (as the code has it): for every provider and fqdn, with one
    trailing dot stripped from the fqdn and from the zone name,
    [validateFQDN] accepts exactly when the fqdn is the zone name or ends
    with a dot followed by the zone name, and the zone name does not occur
    in it twice without overlap (occurrences are counted from the left,
    each starting after the previous one ends). Against the zone
    blahonga.me the names home.blahonga.me, blahonga.me and
    api.v1.home.blahonga.me are accepted, with or without a trailing dot,
    and home.example.com and home.blahonga.me.blahonga.me are rejected,
    with or without a trailing dot. *)
Theorem validateFQDN_accepts_iff :
  forall (p : route53.Provider) (fqdn : string),
    (route53.validateFQDN p fqdn = None
     <-> in_zone (strip_dot (route53.zoneName p)) (strip_dot fqdn)
         /\ ~ occurs_twice_apart (strip_dot (route53.zoneName p)) (strip_dot fqdn))
    /\ Forall (fun f => route53.validateFQDN (zone_provider "blahonga.me") f = None)
         ["home.blahonga.me"; "blahonga.me"; "api.v1.home.blahonga.me";
          "home.blahonga.me."; "blahonga.me."; "api.v1.home.blahonga.me."]
    /\ Forall (fun f => route53.validateFQDN (zone_provider "blahonga.me") f <> None)
         ["home.example.com"; "home.blahonga.me.blahonga.me";
          "home.example.com."; "home.blahonga.me.blahonga.me."].
Proof.
  intros p fqdn. split; [| split].
  - rewrite validateFQDN_None, Count_gt1_iff. reflexivity.
  - repeat constructor.
  - repeat constructor; vm_compute; discriminate.
Qed.

(** C1 as stated fails on overlapping occurrences: in the zone me.me the
    name me.me.me is accepted, although the zone name occurs in it at
    offset 0 and at offset 3, so not at most once. *)
Lemma validateFQDN_overlap_accepted :
  route53.validateFQDN (zone_provider "me.me") "me.me.me" = None
  /\ in_zone (strip_dot "me.me") (strip_dot "me.me.me")
  /\ ~ occurs_at_most_once (strip_dot "me.me") (strip_dot "me.me.me").
Proof.
  split; [reflexivity |]. split.
  - right. exists "me". reflexivity.
  - intros H. specialize (H 0 3).
    assert (0 = 3); [| discriminate]. apply H.
    + exists "", ".me". split; reflexivity.
    + exists "me.", "". split; reflexivity.
Qed.

(** C10: against the zone blahonga.me, the name blahonga.me.x.blahonga.me
    is a proper subdomain (it ends with a dot followed by the zone name),
    yet [validateFQDN] rejects it with the error about the zone name
    occurring multiple times, because [Count] finds the zone name twice. *)
Theorem validateFQDN_rejects_genuine_subdomain :
  exists fqdn : string,
    fqdn = "blahonga.me.x.blahonga.me"
    /\ (exists label, strip_dot fqdn = label +:+ "." +:+ strip_dot "blahonga.me")
    /\ GoStrings.Count (strip_dot fqdn) (strip_dot "blahonga.me") = 2
    /\ route53.validateFQDN (zone_provider "blahonga.me") fqdn
       = Some "FQDN blahonga.me.x.blahonga.me contains zone name blahonga.me multiple times".
Proof.
  exists "blahonga.me.x.blahonga.me". split; [reflexivity |]. split.
  - exists "blahonga.me.x". reflexivity.
  - split; reflexivity.
Qed.

(** ** [UpdateRecord] *)

(** C6: when fqdn or ip is empty, or the fqdn fails the zone membership
    check, [UpdateRecord] returns an error and leaves the provider, its
    client and the requests the client has sent as they were. *)
Theorem UpdateRecord_rejects_without_request :
  forall (p : route53.Provider) (fqdn ip : string),
    fqdn = "" \/ ip = "" \/ route53.validateFQDN p fqdn <> None ->
    exists err, route53.UpdateRecord p fqdn ip = (Some err, p)
                /\ route53.sent (route53.client (snd (route53.UpdateRecord p fqdn ip)))
                   = route53.sent (route53.client p).
Proof.
  intros p fqdn ip H. unfold route53.UpdateRecord.
  destruct (String.eqb fqdn "" || String.eqb ip "") eqn:E.
  - eexists; split; reflexivity.
  - apply orb_false_elim in E as [E1 E2].
    apply String.eqb_neq in E1, E2.
    destruct H as [H | [H | H]]; [contradiction | contradiction |].
    destruct (route53.validateFQDN p fqdn) as [err|]; [| contradiction].
    exists err. split; reflexivity.
Qed.

Lemma UpdateRecord_rejects_without_request_witness :
  exists err,
    route53.UpdateRecord (zone_provider "blahonga.me") "home.example.com" "1.2.3.4"
    = (Some err, zone_provider "blahonga.me")
    /\ route53.sent (route53.client
         (snd (route53.UpdateRecord (zone_provider "blahonga.me") "home.example.com" "1.2.3.4")))
       = route53.sent (route53.client (zone_provider "blahonga.me")).
Proof.
  apply (UpdateRecord_rejects_without_request (zone_provider "blahonga.me")
           "home.example.com" "1.2.3.4").
  right; right. vm_compute. discriminate.
Defined.

(** C7: a call that passes the emptiness and zone membership checks sends
    exactly one change request, to the bound hosted zone: a single UPSERT
    of an A record named fqdn, with the single value ip and TTL 60. The
    call returns what the upstream answered and the zone binding stays. *)
Theorem UpdateRecord_sends_one_upsert :
  forall (p : route53.Provider) (fqdn ip : string),
    fqdn <> "" -> ip <> "" -> route53.validateFQDN p fqdn = None ->
    let '(err, p') := route53.UpdateRecord p fqdn ip in
    route53.sent (route53.client p')
    = route53.sent (route53.client p) ++ [upsert_A (route53.zoneID p) fqdn ip]
    /\ err = route53.upstream (route53.client p) (upsert_A (route53.zoneID p) fqdn ip)
    /\ route53.zoneID p' = route53.zoneID p
    /\ route53.zoneName p' = route53.zoneName p.
Proof.
  intros p fqdn ip Hf Hi Hv. unfold route53.UpdateRecord.
  apply String.eqb_neq in Hf, Hi. rewrite Hf, Hi, Hv. simpl.
  repeat split.
Qed.

Lemma UpdateRecord_sends_one_upsert_witness :
  let '(err, p') :=
    route53.UpdateRecord (zone_provider "blahonga.me") "home.blahonga.me" "1.2.3.4" in
  route53.sent (route53.client p')
  = route53.sent (route53.client (zone_provider "blahonga.me"))
    ++ [upsert_A (route53.zoneID (zone_provider "blahonga.me")) "home.blahonga.me" "1.2.3.4"]
  /\ err = route53.upstream (route53.client (zone_provider "blahonga.me"))
             (upsert_A (route53.zoneID (zone_provider "blahonga.me"))
                "home.blahonga.me" "1.2.3.4")
  /\ route53.zoneID p' = route53.zoneID (zone_provider "blahonga.me")
  /\ route53.zoneName p' = route53.zoneName (zone_provider "blahonga.me").
Proof.
  apply (UpdateRecord_sends_one_upsert (zone_provider "blahonga.me")
           "home.blahonga.me" "1.2.3.4");
    [discriminate | discriminate | reflexivity].
Defined.

(** ** The handler *)
Section Responder.

Import http server.

Context {P : Type} `{provider.Provider P}.

(** The handler never panics and leaves the world [respond] describes. *)
Lemma handler_run (r : Request) (srv : Server P) (clk : nat -> Z) :
  serve r (start srv clk) = Some (respond r srv clk).
Proof.
  unfold serve, respond, provider_stage, dynDNSUpdateHandler, start.
  unfold bad_credentials, update_request, answered, log_object, slog_record.
  unfold user_agent, authorization, hostname, myip.
  destruct r as [meth hdr qry remote]. cbn [http.Method http.RemoteAddr Header URL_Query].
  generalize (Get hdr "User-Agent") (Get hdr "Authorization")
    (Get qry "hostname") (Get qry "myip"). intros ua auth fqdn ip.
  destruct (String.eqb ua "" || negb (GoStrings.Contains ua validUserAgent));
    [reflexivity |].
  destruct (negb (String.eqb meth MethodGet)); [reflexivity |].
  destruct (negb (GoStrings.HasPrefix auth "Basic ")); [reflexivity |].
  destruct (base64.DecodeString (GoStrings.TrimPrefix auth "Basic ")) as [payload|];
    [| reflexivity].
  unfold GoStrings.SplitN2.
  destruct (GoStrings.Index payload ":" <? 0)%Z; [reflexivity |].
  generalize (take_bytes (Z.to_nat (GoStrings.Index payload ":")) payload)
    (drop_bytes (Z.to_nat (GoStrings.Index payload ":") + len ":") payload).
  intros u pw.
  destruct (String.eqb_spec u validUser) as [->|Hu].
  2:{ apply String.eqb_neq in Hu.
      cbv [bind or_else ret index]. simpl. rewrite Hu. reflexivity. }
  destruct (String.eqb_spec pw validPassword) as [->|Hp].
  2:{ apply String.eqb_neq in Hp.
      cbv [bind or_else ret index]. simpl. rewrite Hp. reflexivity. }
  destruct (String.eqb fqdn ""); [reflexivity |].
  destruct (String.eqb ip ""); [reflexivity |].
  destruct srv as [[p|]]; [| reflexivity].
  cbv [bind or_else ret index when provider_UpdateRecord s_provider]. simpl.
  destruct (provider.UpdateRecord p fqdn ip) as [[e|] p']; reflexivity.
Qed.

(** *** The checks of the code and the conditions of the specification *)

Lemma agent_check (r : Request) :
  String.eqb (user_agent r) "" || negb (GoStrings.Contains (user_agent r) validUserAgent)
  = false
  <-> recognised_agent r.
Proof.
  unfold recognised_agent.
  rewrite orb_false_iff, negb_false_iff, Contains_iff, String.eqb_neq. split.
  - now intros [_ Hc].
  - intros (a & b & E). split; [| now exists a, b].
    rewrite E. destruct a; discriminate.
Qed.

Lemma method_check (r : Request) :
  negb (String.eqb (http.Method r) MethodGet) = false <-> http.Method r = "GET".
Proof. rewrite negb_false_iff. apply String.eqb_eq. Qed.

Lemma bad_credentials_false (payload : string) :
  bad_credentials payload = false <-> payload = validUser +:+ ":" +:+ validPassword.
Proof.
  split; [| now intros ->].
  unfold bad_credentials, GoStrings.SplitN2.
  destruct (Index_spec ":" payload) as [[E _] | (k & E & (a & b & -> & L) & _)];
    rewrite E.
  - discriminate.
  - replace (Z.of_nat k <? 0)%Z with false by (symmetry; apply Z.ltb_ge; lia).
    rewrite Nat2Z.id. subst k. rewrite take_append, <- drop_drop, drop_append.
    simpl. rewrite !orb_false_iff, !negb_false_iff, !String.eqb_eq.
    now intros [-> ->].
Qed.

Lemma auth_check (r : Request) :
  (GoStrings.HasPrefix (authorization r) "Basic " = true
   /\ exists payload,
       base64.DecodeString (GoStrings.TrimPrefix (authorization r) "Basic ") = Some payload
       /\ bad_credentials payload = false)
  <-> authorised r.
Proof.
  unfold authorised. split.
  - intros (Hp & payload & Hd & Hb). apply HasPrefix_iff in Hp as [enc E].
    rewrite E, TrimPrefix_append in Hd. apply bad_credentials_false in Hb. subst payload.
    now exists enc.
  - intros (enc & E & Hd). rewrite E, TrimPrefix_append. split.
    + apply HasPrefix_iff. now exists enc.
    + exists (validUser +:+ ":" +:+ validPassword). split; [exact Hd | reflexivity].
Qed.

Lemma passes_dec (r : Request) (c : Check) : passes r c \/ ~ passes r c.
Proof.
  destruct c; simpl.
  - rewrite <- agent_check. destruct (_ || _); [right | left]; congruence.
  - rewrite <- method_check. destruct (negb _); [right | left]; congruence.
  - rewrite <- auth_check.
    destruct (GoStrings.HasPrefix (authorization r) "Basic ");
      [| right; intros [? _]; discriminate].
    destruct (base64.DecodeString _) as [payload|];
      [| right; intros (_ & ? & ? & _); discriminate].
    destruct (bad_credentials payload) eqn:Eb.
    + right. intros (_ & ? & [= <-] & ?). congruence.
    + left. split; [reflexivity | now exists payload].
  - destruct (String.eqb_spec (hostname r) ""); [right | left]; congruence.
  - destruct (String.eqb_spec (myip r) ""); [right | left]; congruence.
Qed.

(** Every request is valid or has a first failing check. *)
Lemma validation_cases (r : Request) : valid r \/ exists c, first_failing r c.
Proof.
  unfold valid, first_failing.
  destruct (passes_dec r UserAgentCheck) as [H0|H0];
    [| right; exists UserAgentCheck; split; [exact H0 | intros c'; simpl; lia]].
  destruct (passes_dec r MethodCheck) as [H1|H1];
    [| right; exists MethodCheck; split; [exact H1 |];
       intros [] Hr; simpl in Hr; try lia; assumption].
  destruct (passes_dec r AuthCheck) as [H2|H2];
    [| right; exists AuthCheck; split; [exact H2 |];
       intros [] Hr; simpl in Hr; try lia; assumption].
  destruct (passes_dec r HostnameCheck) as [H3|H3];
    [| right; exists HostnameCheck; split; [exact H3 |];
       intros [] Hr; simpl in Hr; try lia; assumption].
  destruct (passes_dec r MyipCheck) as [H4|H4];
    [| right; exists MyipCheck; split; [exact H4 |];
       intros [] Hr; simpl in Hr; try lia; assumption].
  left. intros []; assumption.
Qed.

Lemma first_failing_not_valid (r : Request) (c : Check) :
  first_failing r c -> ~ valid r.
Proof. intros [Hn _] Hv. exact (Hn (Hv c)). Qed.

(** *** The branches of the responder *)

Lemma respond_bad_agent (r : Request) (srv : Server P) (clk : nat -> Z) :
  ~ recognised_agent r ->
  respond r srv clk
  = answered r srv clk
      [slog_record r slog.LevelWarn "bad user agent" [("user-agent", user_agent r)]]
      [] "" "" "" 400%Z "badagent" "invalid user agent".
Proof.
  intros Hn. unfold respond.
  destruct (_ || _) eqn:E; [reflexivity |]. apply agent_check in E. contradiction.
Qed.

Lemma respond_bad_method (r : Request) (srv : Server P) (clk : nat -> Z) :
  recognised_agent r -> http.Method r <> "GET" ->
  respond r srv clk
  = answered r srv clk
      [slog_record r slog.LevelWarn "bad method" [("method", http.Method r)]]
      [] "" "" "" 405%Z "badagent" "method not allowed".
Proof.
  intros Ha Hn. unfold respond. apply agent_check in Ha. rewrite Ha.
  destruct (negb (String.eqb (http.Method r) MethodGet)) eqn:E; [reflexivity |].
  apply method_check in E. contradiction.
Qed.

Lemma respond_unauthorised (r : Request) (srv : Server P) (clk : nat -> Z) :
  recognised_agent r -> http.Method r = "GET" -> ~ authorised r ->
  exists msg args errorMsg,
    respond r srv clk
    = answered r srv clk [slog_record r slog.LevelWarn msg args]
        [] "" "" "" 401%Z "badauth" errorMsg.
Proof.
  intros Ha Hm Hn. unfold respond.
  apply agent_check in Ha. apply method_check in Hm. rewrite Ha, Hm.
  rewrite <- auth_check in Hn.
  destruct (GoStrings.HasPrefix (authorization r) "Basic "); simpl;
    [| now eexists _, _, _].
  destruct (base64.DecodeString _) as [payload|]; [| now eexists _, _, _].
  destruct (bad_credentials payload) eqn:Eb; [now eexists _, _, _ |].
  exfalso. apply Hn. split; [reflexivity | now exists payload].
Qed.

(** Past the authorization check the user is the configured one, and the
    responder goes on to the parameters. *)
Lemma respond_authorised (r : Request) (srv : Server P) (clk : nat -> Z) :
  recognised_agent r -> http.Method r = "GET" -> authorised r ->
  respond r srv clk
  = if String.eqb (hostname r) ""
    then answered r srv clk [slog_record r slog.LevelWarn "missing fqdn" []]
           [] validUser (hostname r) (myip r) 200%Z "nofqdn" "missing hostname parameter"
    else if String.eqb (myip r) ""
    then answered r srv clk [slog_record r slog.LevelWarn "missing ip" []]
           [] validUser (hostname r) (myip r) 200%Z "dnserr" "missing myip parameter"
    else provider_stage r srv clk validUser.
Proof.
  intros Ha Hm Hz. unfold respond.
  apply agent_check in Ha. apply method_check in Hm. rewrite Ha, Hm.
  apply auth_check in Hz as (Hp & payload & Hd & Hb). rewrite Hp, Hd, Hb. simpl.
  apply bad_credentials_false in Hb. subst payload. reflexivity.
Qed.

Lemma respond_valid (r : Request) (srv : Server P) (clk : nat -> Z) :
  valid r -> respond r srv clk = provider_stage r srv clk validUser.
Proof.
  intros Hv. rewrite respond_authorised;
    [| exact (Hv UserAgentCheck) | exact (Hv MethodCheck) | exact (Hv AuthCheck)].
  pose proof (Hv HostnameCheck) as Hh. pose proof (Hv MyipCheck) as Hi. simpl in Hh, Hi.
  apply String.eqb_neq in Hh, Hi. now rewrite Hh, Hi.
Qed.

(** Whatever check fails first, the responder answers once with the
    table's entry for that check, after one warning and without a call
    to the provider; the user and the parameters are in the log exactly
    from the hostname check on. *)
Lemma respond_first_failing (r : Request) (srv : Server P) (clk : nat -> Z) (c : Check) :
  first_failing r c ->
  exists msg args user fqdn ip errorMsg,
    respond r srv clk
    = answered r srv clk [slog_record r slog.LevelWarn msg args] []
        user fqdn ip (fst (terminal c)) (snd (terminal c)) errorMsg
    /\ (user, fqdn, ip)
       = if rank c <? 3 then ("", "", "") else (validUser, hostname r, myip r).
Proof.
  intros [Hn He]. destruct c; simpl in Hn.
  - rewrite respond_bad_agent by exact Hn. now eexists _, _, _, _, _, _.
  - rewrite respond_bad_method; [| exact (He UserAgentCheck ltac:(simpl; lia)) | exact Hn].
    now eexists _, _, _, _, _, _.
  - destruct (respond_unauthorised r srv clk) as (msg & args & e & ->);
      [exact (He UserAgentCheck ltac:(simpl; lia))
      | exact (He MethodCheck ltac:(simpl; lia)) | exact Hn |].
    now eexists _, _, _, _, _, _.
  - rewrite respond_authorised;
      [| exact (He UserAgentCheck ltac:(simpl; lia))
       | exact (He MethodCheck ltac:(simpl; lia))
       | exact (He AuthCheck ltac:(simpl; lia))].
    destruct (String.eqb_spec (hostname r) ""); [| contradiction].
    now eexists _, _, _, _, _, _.
  - rewrite respond_authorised;
      [| exact (He UserAgentCheck ltac:(simpl; lia))
       | exact (He MethodCheck ltac:(simpl; lia))
       | exact (He AuthCheck ltac:(simpl; lia))].
    pose proof (He HostnameCheck ltac:(simpl; lia)) as Hh. simpl in Hh.
    apply String.eqb_neq in Hh. rewrite Hh.
    destruct (String.eqb_spec (myip r) ""); [| contradiction].
    now eexists _, _, _, _, _, _.
Qed.

Lemma first_failing_unique (r : Request) (c c' : Check) :
  first_failing r c -> first_failing r c' -> c = c'.
Proof.
  intros [Hn He] [Hn' He'].
  destruct (Nat.lt_trichotomy (rank c) (rank c')) as [L | [E | L]].
  - destruct (Hn (He' c L)).
  - destruct c, c'; simpl in E; congruence || lia.
  - destruct (Hn' (He c' L)).
Qed.

Lemma token_good (ip : string) : token (MsgGood +:+ " " +:+ ip) = MsgGood.
Proof. reflexivity. Qed.

Lemma omitempty_In (key value : string) :
  value <> "" -> In (key, json.Str value) (omitempty key value).
Proof.
  intros Hv. unfold omitempty. apply String.eqb_neq in Hv. rewrite Hv. now left.
Qed.

(** Every run ends in one call of [logAndRespond]; past the
    authorization check the log carries the user and the parameters. *)
Lemma respond_answered (r : Request) (srv : Server P) (clk : nat -> Z) :
  exists srv' logged calls user fqdn ip status message errorMsg,
    respond r srv clk
    = answered r srv' clk logged calls user fqdn ip status message errorMsg
    /\ (recognised_agent r -> http.Method r = "GET" -> authorised r ->
        user = validUser /\ fqdn = hostname r /\ ip = myip r).
Proof.
  destruct (validation_cases r) as [Hv | [c Hc]].
  - rewrite (respond_valid r srv clk Hv). unfold provider_stage.
    destruct (provider srv) as [p|].
    + destruct (provider.UpdateRecord p (hostname r) (myip r)) as [[e|] p'];
        eexists _, _, _, _, _, _, _, _, _; (split; [reflexivity | now intros]).
    + eexists _, _, _, _, _, _, _, _, _. split; [reflexivity | now intros].
  - destruct (respond_first_failing r srv clk c Hc)
      as (msg & args & user & fqdn & ip & e & -> & Hu).
    eexists _, _, _, _, _, _, _, _, _. split; [reflexivity |].
    intros Ha Hm Hz. destruct Hc as [Hn _].
    destruct c; simpl in Hn, Hu; try contradiction; now injection Hu as -> -> ->.
Qed.

(** ** The claims on the responder *)

Lemma failing_has_first (r : Request) (c0 : Check) :
  ~ passes r c0 -> exists c, first_failing r c /\ rank c <= rank c0.
Proof.
  intros Hn. destruct (validation_cases r) as [Hv | [c Hc]]; [destruct (Hn (Hv c0)) |].
  exists c. split; [exact Hc |].
  destruct (Nat.le_gt_cases (rank c) (rank c0)) as [L | L]; [exact L |].
  destruct Hc as [_ He]. destruct (Hn (He c0 L)).
Qed.

(** C2: the checks are evaluated in the order User-Agent, method,
    Basic-Auth, hostname, myip. When a request fails any of them, there
    is a first check it fails, and that one fixes the response (the
    table's status and code for that check) whatever the later checks
    would say; the handler logs the one warning of that check and nothing
    of a later one, and the provider is not called: no call is recorded
    and the server's provider is as before. *)
Theorem first_failing_check_decides :
  forall (r : Request) (srv : Server P) (clk : nat -> Z) (c0 : Check),
    ~ passes r c0 ->
    exists c st' warning,
      first_failing r c /\ rank c <= rank c0
      /\ serve r (start srv clk) = Some st'
      /\ response st' = (fst (terminal c), line (snd (terminal c)))
      /\ W_slog st' = [warning]
      /\ slog.level warning = slog.LevelWarn
      /\ W_calls st' = []
      /\ W_s st' = srv.
Proof.
  intros r srv clk c0 Hn. destruct (failing_has_first r c0 Hn) as (c & Hc & Hr).
  exists c. rewrite handler_run.
  destruct (respond_first_failing r srv clk c Hc)
    as (msg & args & user & fqdn & ip & e & -> & _).
  eexists _, _. repeat split; assumption || apply Hc.
Qed.

(** C3: the response code and the HTTP status follow the mapping table,
    each row read after the rows above it: a bad or missing user agent
    gives badagent with 400, a wrong method badagent with 405, a missing,
    invalid or wrong authorization badauth with 401, a missing hostname
    nofqdn with 200, a missing myip dnserr with 200, a failed provider
    update dnserr with 200, an absent provider good and the ip with 200,
    a successful update good and the ip with 200. *)
Theorem response_mapping_table :
  forall (r : Request) (srv : Server P) (clk : nat -> Z),
  exists st',
    serve r (start srv clk) = Some st'
    /\ (~ recognised_agent r -> response st' = (400%Z, line "badagent"))
    /\ (recognised_agent r -> http.Method r <> "GET" ->
        response st' = (405%Z, line "badagent"))
    /\ (recognised_agent r -> http.Method r = "GET" -> ~ authorised r ->
        response st' = (401%Z, line "badauth"))
    /\ (recognised_agent r -> http.Method r = "GET" -> authorised r ->
        hostname r = "" -> response st' = (200%Z, line "nofqdn"))
    /\ (recognised_agent r -> http.Method r = "GET" -> authorised r ->
        hostname r <> "" -> myip r = "" -> response st' = (200%Z, line "dnserr"))
    /\ (valid r ->
        forall p e p', provider srv = Some p ->
          provider.UpdateRecord p (hostname r) (myip r) = (Some e, p') ->
          response st' = (200%Z, line "dnserr"))
    /\ (valid r -> provider srv = None ->
        response st' = (200%Z, line ("good " +:+ myip r)))
    /\ (valid r ->
        forall p p', provider srv = Some p ->
          provider.UpdateRecord p (hostname r) (myip r) = (None, p') ->
          response st' = (200%Z, line ("good " +:+ myip r))).
Proof.
  intros r srv clk. exists (respond r srv clk). split; [apply handler_run |].
  repeat split.
  - intros Hn. now rewrite respond_bad_agent.
  - intros Ha Hm. now rewrite respond_bad_method.
  - intros Ha Hm Hn.
    now destruct (respond_unauthorised r srv clk Ha Hm Hn) as (? & ? & ? & ->).
  - intros Ha Hm Hz Hh. rewrite respond_authorised by assumption.
    apply String.eqb_eq in Hh. now rewrite Hh.
  - intros Ha Hm Hz Hh Hi. rewrite respond_authorised by assumption.
    apply String.eqb_neq in Hh. apply String.eqb_eq in Hi. now rewrite Hh, Hi.
  - intros Hv p e p' Hp Hu. rewrite respond_valid by assumption.
    unfold provider_stage. now rewrite Hp, Hu.
  - intros Hv Hp. rewrite respond_valid by assumption.
    unfold provider_stage. now rewrite Hp.
  - intros Hv p p' Hp Hu. rewrite respond_valid by assumption.
    unfold provider_stage. now rewrite Hp, Hu.
Qed.

Lemma colon_split_unique (u p : string) :
  u +:+ ":" +:+ p = validUser +:+ ":" +:+ validPassword ->
  u = validUser /\ p = validPassword.
Proof.
  intros E. vm_compute in E.
  do 5 (destruct u as [|? u]; simpl in E;
        [first [discriminate | now injection E as ->] | injection E as -> E]).
  do 4 (destruct u as [|? u]; simpl in E; [discriminate | injection E as -> E]).
  destruct u; discriminate.
Qed.

Lemma auth_failure_not_authorised (r : Request) : auth_failure r -> ~ authorised r.
Proof.
  intros Hf (enc & E & Hd). destruct Hf as [Hm | Hn | enc' E' Hd' | enc' pl E' Hd' Hn
                                            | enc' u p E' Hd' Hw].
  - unfold authorization, Get in E. rewrite Hm in E. discriminate.
  - exact (Hn enc E).
  - rewrite E in E'. injection E' as ->. congruence.
  - rewrite E in E'. injection E' as ->. rewrite Hd in Hd'. injection Hd' as <-.
    exact (Hn validUser validPassword eq_refl).
  - rewrite E in E'. injection E' as ->. rewrite Hd in Hd'. injection Hd' as Hd'.
    symmetry in Hd'. apply colon_split_unique in Hd'. tauto.
Qed.

(** C4: for a request that passes the User-Agent and method checks,
    each way the authorization can fail (header missing, header not
    beginning with Basic, payload not valid base64, decoded payload
    without a colon, credentials other than the configured ones) gives
    badauth with 401 and no call to the provider. *)
Theorem auth_failure_badauth :
  forall (r : Request) (srv : Server P) (clk : nat -> Z),
    recognised_agent r -> http.Method r = "GET" -> auth_failure r ->
    exists st',
      serve r (start srv clk) = Some st'
      /\ response st' = (401%Z, line "badauth")
      /\ W_calls st' = []
      /\ W_s st' = srv.
Proof.
  intros r srv clk Ha Hm Hf. rewrite handler_run.
  apply auth_failure_not_authorised in Hf.
  destruct (respond_unauthorised r srv clk Ha Hm Hf) as (msg & args & e & ->).
  eexists. repeat split.
Qed.

(** C5: the body is always one line, the message followed by a newline.
    The response code, the token the message starts with, is one of good,
    badauth, badagent, nofqdn, dnserr and never one of the reserved codes
    nochg, !donator, nohost, numhost, abuse, 911. A message other than
    good is the bare code; good is followed by a space and the ip of the
    request, and that is the message whenever the request is valid and
    the provider is absent or its update succeeds. *)
Theorem response_body_codes :
  forall (r : Request) (srv : Server P) (clk : nat -> Z),
  exists st' message,
    serve r (start srv clk) = Some st'
    /\ Body (W_w st') = line message
    /\ In (token message) [MsgGood; MsgBadAuth; MsgBadAgent; MsgNotFQDN; MsgDNSErr]
    /\ ~ In (token message)
           [MsgNoChg; MsgNotDonator; MsgNoHost; MsgNumHost; MsgAbuse; Msg911]
    /\ (In message [MsgBadAuth; MsgBadAgent; MsgNotFQDN; MsgDNSErr]
        \/ message = MsgGood +:+ " " +:+ myip r)
    /\ (valid r ->
        provider srv = None
        \/ (exists p p', provider srv = Some p
                         /\ provider.UpdateRecord p (hostname r) (myip r) = (None, p')) ->
        message = MsgGood +:+ " " +:+ myip r).
Proof.
  intros r srv clk. rewrite handler_run.
  assert (Hgood : forall ip,
             In (token (MsgGood +:+ " " +:+ ip))
               [MsgGood; MsgBadAuth; MsgBadAgent; MsgNotFQDN; MsgDNSErr]
             /\ ~ In (token (MsgGood +:+ " " +:+ ip))
                    [MsgNoChg; MsgNotDonator; MsgNoHost; MsgNumHost; MsgAbuse; Msg911]).
  { intros ip. rewrite token_good. split; [now left |].
    simpl. intros [E | [E | [E | [E | [E | [E | []]]]]]]; discriminate. }
  assert (Hbare : forall m, In m [MsgBadAuth; MsgBadAgent; MsgNotFQDN; MsgDNSErr] ->
             In (token m) [MsgGood; MsgBadAuth; MsgBadAgent; MsgNotFQDN; MsgDNSErr]
             /\ ~ In (token m)
                    [MsgNoChg; MsgNotDonator; MsgNoHost; MsgNumHost; MsgAbuse; Msg911]).
  { intros m [<- | [<- | [<- | [<- | []]]]]; (split; [vm_compute; tauto |]);
      vm_compute; intros [E | [E | [E | [E | [E | [E | []]]]]]]; discriminate. }
  destruct (validation_cases r) as [Hv | [c Hc]].
  - rewrite (respond_valid r srv clk Hv). unfold provider_stage.
    destruct (provider srv) as [p|].
    + destruct (provider.UpdateRecord p (hostname r) (myip r)) as [[e|] p'] eqn:Eu.
      * eexists _, MsgDNSErr. split; [reflexivity |]. split; [reflexivity |].
        destruct (Hbare MsgDNSErr) as [H1 H2]; [simpl; tauto |].
        split; [exact H1 |]. split; [exact H2 |]. split; [left; simpl; tauto |].
        intros _ [Hn | (p0 & p0' & [= <-] & Hu)]; [discriminate |].
        rewrite Eu in Hu. discriminate.
      * eexists _, _. split; [reflexivity |]. split; [reflexivity |].
        destruct (Hgood (myip r)) as [H1 H2].
        split; [exact H1 |]. split; [exact H2 |]. split; [now right | reflexivity].
    + eexists _, _. split; [reflexivity |]. split; [reflexivity |].
      destruct (Hgood (myip r)) as [H1 H2].
      split; [exact H1 |]. split; [exact H2 |]. split; [now right | reflexivity].
  - destruct (respond_first_failing r srv clk c Hc)
      as (msg & args & user & fqdn & ip & e & -> & _).
    eexists _, (snd (terminal c)). split; [reflexivity |]. split; [reflexivity |].
    assert (Hin : In (snd (terminal c)) [MsgBadAuth; MsgBadAgent; MsgNotFQDN; MsgDNSErr])
      by (destruct c; simpl; tauto).
    destruct (Hbare _ Hin) as [H1 H2].
    split; [exact H1 |]. split; [exact H2 |]. split; [now left |].
    intros Hv. destruct (first_failing_not_valid r c Hc Hv).
Qed.

(** C8: the pipeline is total. For every request the handler ends without
    a panic and has answered exactly once; and exactly one of two things
    happened: the request is valid and was passed on to the provider
    stage, or exactly one check failed first and its response code is the
    answer, the provider stage not being reached. *)
Theorem validation_total :
  forall (r : Request) (srv : Server P) (clk : nat -> Z),
  exists st',
    (dynDNSUpdateHandler r (start srv clk) = Returned st'
     \/ dynDNSUpdateHandler r (start srv clk) = Next tt st')
    /\ length (W_klog st') = 1
    /\ wroteHeader (W_w st') = true
    /\ ((valid r /\ In (update_request r) (W_slog st'))
        \/ (exists! c, first_failing r c
                       /\ response st' = (fst (terminal c), line (snd (terminal c)))
                       /\ ~ In (update_request r) (W_slog st')
                       /\ W_calls st' = [])).
Proof.
  intros r srv clk. exists (respond r srv clk).
  pose proof (handler_run r srv clk) as Hrun. unfold serve in Hrun.
  split.
  { destruct (dynDNSUpdateHandler r (start srv clk)) as [? | st | [] st];
      [discriminate | left | right]; now injection Hrun as ->. }
  clear Hrun.
  destruct (respond_answered r srv clk)
    as (srv' & lg & cl & u & f & i & st & m & e & Ea & _).
  split; [now rewrite Ea |]. split; [now rewrite Ea |]. clear Ea.
  destruct (validation_cases r) as [Hv | [c Hc]].
  - left. split; [exact Hv |]. rewrite (respond_valid r srv clk Hv).
    unfold provider_stage. destruct (provider srv) as [p|].
    + destruct (provider.UpdateRecord p (hostname r) (myip r)) as [[e'|] p']; now left.
    + now left.
  - right. exists c.
    destruct (respond_first_failing r srv clk c Hc)
      as (msg & args & user & fqdn & ip & e' & -> & _).
    split.
    + split; [exact Hc |]. split; [reflexivity |]. split; [| reflexivity].
      simpl. intros [E | []]. discriminate.
    + intros c' [Hc' _]. exact (first_failing_unique r c c' Hc Hc').
Qed.

(** C9: whatever the outcome, the handler emits exactly one structured
    log record. The record carries the final status and response code
    (those of the response written) and the elapsed time between the
    start of the request and the answer; once the request passed the
    authorization check it carries the username, and the fqdn and the ip
    when the request has them. *)
Theorem one_log_record :
  forall (r : Request) (srv : Server P) (clk : nat -> Z),
  exists st' object message,
    serve r (start srv clk) = Some st'
    /\ W_klog st'
       = [ {| klog.msg := "DynDNS request"; klog.keysAndValues := [("request", object)] |} ]
    /\ Body (W_w st') = line message
    /\ In ("response", json.Str message) object
    /\ In ("status_code", json.Num (Code (W_w st'))) object
    /\ In ("duration", json.DurationString (clk 1%nat - clk 0%nat)%Z) object
    /\ (recognised_agent r -> http.Method r = "GET" -> authorised r ->
        In ("username", json.Str validUser) object
        /\ (hostname r <> "" -> In ("fqdn", json.Str (hostname r)) object)
        /\ (myip r <> "" -> In ("ip", json.Str (myip r)) object)).
Proof.
  intros r srv clk. rewrite handler_run.
  destruct (respond_answered r srv clk)
    as (srv' & lg & cl & u & f & i & st & m & e & -> & Hest).
  eexists _, _, m. split; [reflexivity |]. split; [reflexivity |].
  split; [reflexivity |]. unfold log_object. cbn [answered W_w Code].
  split; [rewrite !in_app_iff; simpl; tauto |].
  split; [rewrite !in_app_iff; simpl; tauto |].
  split; [rewrite !in_app_iff; simpl; tauto |].
  intros Ha Hm Hz. destruct (Hest Ha Hm Hz) as (-> & -> & ->).
  split; [rewrite !in_app_iff; simpl; tauto |]. split.
  - intros Hh. rewrite !in_app_iff. pose proof (omitempty_In "fqdn" _ Hh). tauto.
  - intros Hi. rewrite !in_app_iff. pose proof (omitempty_In "ip" _ Hi). tauto.
Qed.

End Responder.

(** ** The scenarios of the tests *)

Import http server.

Example test_Success :
  option_map (fun st => (response st, provider (W_s st)))
    (serve good_request (start (NewServer (Some mockProvider)) test_clock))
  = Some ((200%Z, line "good 1.2.3.4"),
          Some {| updateCalled := true; updateError := None |}).
Proof. vm_compute. reflexivity. Qed.

Example test_BadAuth :
  option_map (fun st => (response st, provider (W_s st)))
    (serve bad_auth_request (start (NewServer (Some mockProvider)) test_clock))
  = Some ((401%Z, line "badauth"), Some mockProvider).
Proof. vm_compute. reflexivity. Qed.

Example test_MissingParams :
  option_map response
    (serve no_hostname_request (start (NewServer (Some mockProvider)) test_clock))
  = Some (200%Z, line "nofqdn").
Proof. vm_compute. reflexivity. Qed.

Example test_no_provider :
  option_map response
    (serve good_request (start (NewServer (@None MockProvider)) test_clock))
  = Some (200%Z, line "good 1.2.3.4").
Proof. vm_compute. reflexivity. Qed.

Example Count_doubled_suffix :
  GoStrings.Count "home.blahonga.me.blahonga.me" "blahonga.me" = 2.
Proof. reflexivity. Qed.

Example Count_empty_substr : GoStrings.Count "ab" "" = 3.
Proof. reflexivity. Qed.

Example DecodeString_credentials : base64.DecodeString "dXNlcjpwYXNz" = Some "user:pass".
Proof. reflexivity. Qed.

Example DecodeString_padding :
  base64.DecodeString "YQ==" = Some "a" /\ base64.DecodeString "YWI=" = Some "ab"
  /\ base64.DecodeString "YWI" = None /\ base64.DecodeString "YQ=a" = None.
Proof. repeat split. Qed.

(** ** Witnesses *)

Lemma first_failing_check_decides_witness :
  ~ passes bad_auth_request AuthCheck
  /\ exists c st' warning,
      first_failing bad_auth_request c /\ rank c <= rank AuthCheck
      /\ serve bad_auth_request (start (NewServer (Some mockProvider)) test_clock) = Some st'
      /\ response st' = (fst (terminal c), line (snd (terminal c)))
      /\ W_slog st' = [warning]
      /\ slog.level warning = slog.LevelWarn
      /\ W_calls st' = []
      /\ W_s st' = NewServer (Some mockProvider).
Proof.
  assert (Hn : ~ passes bad_auth_request AuthCheck).
  { simpl. rewrite <- auth_check. intros (_ & payload & Hd & Hb).
    vm_compute in Hd. injection Hd as <-. vm_compute in Hb. discriminate. }
  split; [exact Hn |].
  exact (first_failing_check_decides bad_auth_request (NewServer (Some mockProvider))
           test_clock AuthCheck Hn).
Defined.

Lemma auth_failure_badauth_witness :
  exists st',
    serve bad_auth_request (start (NewServer (Some mockProvider)) test_clock) = Some st'
    /\ response st' = (401%Z, line "badauth")
    /\ W_calls st' = []
    /\ W_s st' = NewServer (Some mockProvider).
Proof.
  apply (auth_failure_badauth bad_auth_request (NewServer (Some mockProvider)) test_clock).
  - exists "", "". reflexivity.
  - reflexivity.
  - apply (wrong_credentials bad_auth_request "YmFkOmNyZWRz" "bad" "creds").
    + reflexivity.
    + reflexivity.
    + left. discriminate.
Defined.

(** * Further properties of the code *)

(** ** More on strings *)

Lemma take_append_le (n : nat) (a b : string) :
  n <= len a -> take_bytes n (a +:+ b) = take_bytes n a.
Proof.
  revert a; induction n as [|n IH]; intros [|c a]; simpl; intros Hn;
    try reflexivity; try lia.
  rewrite IH; [reflexivity | lia].
Qed.

(** An occurrence that ends inside a prefix is an occurrence in the
    prefix. *)
Lemma occurs_at_prefix (sub a b : string) (i : nat) :
  occurs_at sub (a +:+ b) i -> i + len sub <= len a -> occurs_at sub a i.
Proof.
  intros (x & y & E & Lx) Hi.
  assert (Et : take_bytes (len (x +:+ sub)) a = x +:+ sub).
  { rewrite <- (take_append_le _ a b) by (rewrite len_append; lia).
    rewrite E, <- append_assoc. apply take_append. }
  exists x, (drop_bytes (len (x +:+ sub)) a). split; [| exact Lx].
  rewrite <- append_assoc, <- Et at 1. now rewrite take_drop.
Qed.

Lemma occurs_at_extend (sub a b : string) (i : nat) :
  occurs_at sub a i -> occurs_at sub (a +:+ b) i.
Proof.
  intros (x & y & -> & Lx). exists x, (y +:+ b). split; [| exact Lx].
  now rewrite !append_assoc.
Qed.

(** A suffix no longer than [z] of [a ++ z] is a suffix of [z]. *)
Lemma suffix_of_append (a z x s : string) :
  a +:+ z = x +:+ s -> len s <= len z -> exists y, z = y +:+ s.
Proof.
  revert x; induction a as [|c a IH]; intros x E Hs; simpl in E.
  - now exists x.
  - destruct x as [|c' x]; simpl in E.
    + exfalso. apply (f_equal len) in E. simpl in E. rewrite len_append in E. lia.
    + injection E as _ E. exact (IH x E Hs).
Qed.

Lemma strip_dot_no_dot (name : string) :
  GoStrings.HasSuffix name "." = false -> strip_dot name = name.
Proof. intros Hs. unfold strip_dot, GoStrings.TrimSuffix. now rewrite Hs. Qed.

Lemma no_dot_append (a z : string) :
  z <> "" -> GoStrings.HasSuffix z "." = false -> GoStrings.HasSuffix (a +:+ z) "." = false.
Proof.
  intros Hz Hs. destruct (GoStrings.HasSuffix (a +:+ z) ".") eqn:E; [| reflexivity].
  apply HasSuffix_iff in E as [x E].
  destruct (suffix_of_append a z x "." E) as [y Hy].
  - destruct z; [contradiction | simpl; lia].
  - assert (GoStrings.HasSuffix z "." = true) by (apply HasSuffix_iff; now exists y).
    congruence.
Qed.

Lemma not_twice_apart_self (z : string) : ~ occurs_twice_apart z z.
Proof.
  intros (i & j & _ & Hj & Hij & Hap). apply occurs_at_bound in Hj. lia.
Qed.

(** ** More on the zone membership check *)

(** The zone's own name, as the provider holds it, is always accepted. *)
Theorem validateFQDN_accepts_apex :
  forall p : route53.Provider, route53.validateFQDN p (route53.zoneName p) = None.
Proof.
  intros p. apply validateFQDN_None. split; [now left |].
  rewrite Count_gt1_iff. apply not_twice_apart_self.
Qed.

(** One trailing dot on the name makes no difference to the verdict. *)
Theorem validateFQDN_trailing_dot :
  forall (p : route53.Provider) (fqdn : string),
    GoStrings.HasSuffix fqdn "." = false ->
    (route53.validateFQDN p (fqdn +:+ ".") = None <-> route53.validateFQDN p fqdn = None).
Proof.
  intros p fqdn Hs. rewrite !validateFQDN_None.
  replace (strip_dot (fqdn +:+ ".")) with fqdn
    by (unfold strip_dot; now rewrite TrimSuffix_append).
  rewrite (strip_dot_no_dot fqdn Hs). reflexivity.
Qed.

Lemma validateFQDN_trailing_dot_witness :
  route53.validateFQDN (zone_provider "blahonga.me") ("home.blahonga.me" +:+ ".") = None
  <-> route53.validateFQDN (zone_provider "blahonga.me") "home.blahonga.me" = None.
Proof.
  apply (validateFQDN_trailing_dot (zone_provider "blahonga.me") "home.blahonga.me").
  reflexivity.
Defined.

(** For a zone name that is not empty and has no trailing dot, a
    subdomain [label.zone] is accepted exactly when the zone name does
    not occur inside [label.] *)
Theorem validateFQDN_subdomain_iff :
  forall (p : route53.Provider) (label : string),
    route53.zoneName p <> "" ->
    GoStrings.HasSuffix (route53.zoneName p) "." = false ->
    (route53.validateFQDN p (label +:+ "." +:+ route53.zoneName p) = None
     <-> GoStrings.Contains (label +:+ ".") (route53.zoneName p) = false).
Proof.
  intros p label Hz Hs. set (z := route53.zoneName p) in *.
  rewrite validateFQDN_None, Count_gt1_iff. fold z.
  rewrite (strip_dot_no_dot z Hs).
  rewrite <- append_assoc.
  rewrite (strip_dot_no_dot ((label +:+ ".") +:+ z)) by now apply no_dot_append.
  set (pre := label +:+ ".").
  assert (Hl : 1 <= len z) by (destruct z; [contradiction | simpl; lia]).
  assert (Hin : in_zone z (pre +:+ z)).
  { right. exists label. unfold pre. now rewrite append_assoc. }
  assert (Hiff : occurs_twice_apart z (pre +:+ z) <-> GoStrings.Contains pre z = true).
  { rewrite Contains_iff. split.
    - intros (i & j & Hi & Hj & Hij & Hap).
      pose proof (occurs_at_bound _ _ _ Hj) as Bj. rewrite len_append in Bj.
      destruct (occurs_at_prefix z pre z i Hi) as (a & b & E & _); [lia |].
      now exists a, b.
    - intros (a & b & E). exists (len a), (len pre). repeat split.
      + apply occurs_at_extend. now exists a, b.
      + exists pre, "". now rewrite append_nil_r.
      + rewrite E, !len_append. lia.
      + rewrite E, !len_append. lia. }
  rewrite Hiff. split.
  - intros [_ Hn]. destruct (GoStrings.Contains pre z); [now destruct Hn | reflexivity].
  - intros Hc. split; [exact Hin |]. rewrite Hc. discriminate.
Qed.

Lemma validateFQDN_subdomain_iff_witness :
  route53.validateFQDN (zone_provider "blahonga.me")
    ("api.v1.home" +:+ "." +:+ route53.zoneName (zone_provider "blahonga.me")) = None
  <-> GoStrings.Contains ("api.v1.home" +:+ ".")
        (route53.zoneName (zone_provider "blahonga.me")) = false.
Proof.
  apply (validateFQDN_subdomain_iff (zone_provider "blahonga.me") "api.v1.home").
  - discriminate.
  - reflexivity.
Defined.

(** A rejection says why: a name outside the zone gets the error about
    not belonging to the zone, whether or not the zone name occurs in it
    several times; the error about multiple occurrences is kept for names
    inside the zone. *)
Theorem validateFQDN_error_kinds :
  forall (p : route53.Provider) (fqdn : string) (e : error),
    route53.validateFQDN p fqdn = Some e ->
    (~ in_zone (strip_dot (route53.zoneName p)) (strip_dot fqdn)
     /\ e = "FQDN " +:+ fqdn +:+ " does not belong to hosted zone " +:+ route53.zoneName p)
    \/ (in_zone (strip_dot (route53.zoneName p)) (strip_dot fqdn)
        /\ occurs_twice_apart (strip_dot (route53.zoneName p)) (strip_dot fqdn)
        /\ e = "FQDN " +:+ fqdn +:+ " contains zone name " +:+ route53.zoneName p
               +:+ " multiple times").
Proof.
  intros p fqdn e. unfold route53.validateFQDN. fold (strip_dot fqdn).
  fold (strip_dot (route53.zoneName p)).
  destruct (negb (GoStrings.HasSuffix (strip_dot fqdn)
                    ("." +:+ strip_dot (route53.zoneName p)))
            && negb (String.eqb (strip_dot fqdn) (strip_dot (route53.zoneName p)))) eqn:E.
  - intros [= <-]. left. split; [| reflexivity].
    rewrite <- in_zone_code. congruence.
  - apply in_zone_code in E.
    destruct (Nat.ltb_spec 1 (GoStrings.Count (strip_dot fqdn)
                                (strip_dot (route53.zoneName p)))) as [L | L];
      [| discriminate].
    intros [= <-]. right. split; [exact E |]. split; [| reflexivity].
    now apply Count_gt1_iff.
Qed.

Lemma validateFQDN_error_kinds_witness :
  (~ in_zone (strip_dot (route53.zoneName (zone_provider "blahonga.me")))
       (strip_dot "home.example.com")
   /\ "FQDN home.example.com does not belong to hosted zone blahonga.me"
      = "FQDN " +:+ "home.example.com" +:+ " does not belong to hosted zone "
        +:+ route53.zoneName (zone_provider "blahonga.me"))
  \/ (in_zone (strip_dot (route53.zoneName (zone_provider "blahonga.me")))
        (strip_dot "home.example.com")
      /\ occurs_twice_apart (strip_dot (route53.zoneName (zone_provider "blahonga.me")))
           (strip_dot "home.example.com")
      /\ "FQDN home.example.com does not belong to hosted zone blahonga.me"
         = "FQDN " +:+ "home.example.com" +:+ " contains zone name "
           +:+ route53.zoneName (zone_provider "blahonga.me") +:+ " multiple times").
Proof.
  apply (validateFQDN_error_kinds (zone_provider "blahonga.me") "home.example.com").
  reflexivity.
Defined.

(** ** Sequences of updates *)

Lemma validateFQDN_binding (p q : route53.Provider) (fqdn : string) :
  route53.zoneName q = route53.zoneName p ->
  route53.validateFQDN q fqdn = route53.validateFQDN p fqdn.
Proof. intros E. unfold route53.validateFQDN. now rewrite E. Qed.

Lemma zone_upsert_binding (p q : route53.Provider)
  (req : route53.ChangeResourceRecordSetsInput) :
  route53.zoneID q = route53.zoneID p -> route53.zoneName q = route53.zoneName p ->
  zone_upsert q req -> zone_upsert p req.
Proof.
  intros Ei En (fqdn & ip & -> & Hf & Hi & Hv). exists fqdn, ip.
  rewrite Ei, <- (validateFQDN_binding p q fqdn En). now repeat split.
Qed.

(** One call keeps the zone binding and the upstream, and sends nothing
    or one change request the zone check allows. *)
Lemma UpdateRecord_step (p : route53.Provider) (fqdn ip : string) :
  let p' := snd (route53.UpdateRecord p fqdn ip) in
  route53.zoneID p' = route53.zoneID p
  /\ route53.zoneName p' = route53.zoneName p
  /\ route53.upstream (route53.client p') = route53.upstream (route53.client p)
  /\ exists new, route53.sent (route53.client p') = route53.sent (route53.client p) ++ new
                 /\ Forall (zone_upsert p) new /\ length new <= 1.
Proof.
  unfold route53.UpdateRecord.
  destruct (String.eqb fqdn "" || String.eqb ip "") eqn:E; simpl.
  - repeat split. exists []. rewrite app_nil_r. repeat split; [constructor | simpl; lia].
  - apply orb_false_elim in E as [E1 E2]. apply String.eqb_neq in E1, E2.
    destruct (route53.validateFQDN p fqdn) eqn:Hv; simpl.
    + repeat split. exists []. rewrite app_nil_r. repeat split; [constructor | simpl; lia].
    + repeat split. eexists [_]. split; [reflexivity |]. split; [| simpl; lia].
      constructor; [| constructor]. now exists fqdn, ip.
Qed.

(** Whatever calls are made, in whatever order, the provider keeps its
    zone id and zone name, every call returns, and everything the client
    sends is the UPSERT of an A record, to the bound zone, for a non-empty
    name that the zone check accepts: nothing is ever sent for a name
    outside the zone. At most one request is sent per call. *)
Theorem UpdateRecords_invariant :
  forall (calls : list (string * string)) (p : route53.Provider),
    let '(errs, p') := UpdateRecords p calls in
    route53.zoneID p' = route53.zoneID p
    /\ route53.zoneName p' = route53.zoneName p
    /\ length errs = length calls
    /\ exists new, route53.sent (route53.client p') = route53.sent (route53.client p) ++ new
                   /\ Forall (zone_upsert p) new
                   /\ length new <= length calls.
Proof.
  induction calls as [|[fqdn ip] rest IH]; intros p; simpl.
  - repeat split. exists []. rewrite app_nil_r. repeat split; [constructor | simpl; lia].
  - pose proof (UpdateRecord_step p fqdn ip) as Hstep.
    destruct (route53.UpdateRecord p fqdn ip) as [err p1]. simpl in Hstep.
    destruct Hstep as (Ei & En & _ & new1 & Es1 & Hf1 & Hl1).
    specialize (IH p1). destruct (UpdateRecords p1 rest) as [errs p2].
    destruct IH as (Ei2 & En2 & Hlen & new2 & Es2 & Hf2 & Hl2).
    split; [congruence |]. split; [congruence |]. split; [simpl; lia |].
    exists (new1 ++ new2). split; [now rewrite Es2, Es1, <- app_assoc |].
    split; [| rewrite length_app; simpl; lia].
    apply Forall_app. split; [exact Hf1 |].
    eapply Forall_impl; [exact Hf2 |]. intros req. now apply zone_upsert_binding.
Qed.

(** ** The constructor *)

(** A provider built by [NewRoute53Provider] has sent nothing, is bound
    to the given zone id, and, when the zone's name has (as usual) at most
    one trailing dot, accepts the zone's name both as the service spells
    it and without the trailing dot. *)
Theorem NewRoute53Provider_accepts_zone_name :
  forall (zoneID : string) (awsCfg : aws.Config) (p : route53.Provider) (name : string),
    NewRoute53Provider zoneID awsCfg = inl p ->
    aws.GetHostedZone awsCfg zoneID = inl name ->
    GoStrings.HasSuffix (strip_dot name) "." = false ->
    zoneID <> ""
    /\ route53.zoneID p = zoneID
    /\ route53.sent (route53.client p) = []
    /\ route53.validateFQDN p name = None
    /\ route53.validateFQDN p (strip_dot name) = None.
Proof.
  intros zoneID awsCfg p name Hnew Hz Hs. unfold NewRoute53Provider in Hnew.
  destruct (String.eqb_spec zoneID ""); [discriminate |].
  rewrite Hz in Hnew. injection Hnew as <-.
  split; [assumption |]. split; [reflexivity |]. split; [reflexivity |].
  fold (strip_dot name).
  assert (Hcount : ~ 1 < GoStrings.Count (strip_dot name) (strip_dot name))
    by (rewrite Count_gt1_iff; apply not_twice_apart_self).
  split; apply validateFQDN_None; simpl; rewrite (strip_dot_no_dot _ Hs);
    (split; [now left | exact Hcount]).
Qed.

Lemma NewRoute53Provider_accepts_zone_name_witness :
  "Z1234567890" <> ""
  /\ route53.zoneID built_provider = "Z1234567890"
  /\ route53.sent (route53.client built_provider) = []
  /\ route53.validateFQDN built_provider "blahonga.me." = None
  /\ route53.validateFQDN built_provider (strip_dot "blahonga.me.") = None.
Proof.
  apply (NewRoute53Provider_accepts_zone_name "Z1234567890" test_config
           built_provider "blahonga.me."); reflexivity.
Defined.

(** ** The serve command *)

Lemma Run_unusable (flags : cmd.Flags) (LoadDefaultConfig : aws.Config + error)
  (StartServer_result : string -> option error) :
  ~ usable flags LoadDefaultConfig ->
  exists errors,
    cmd.Run flags LoadDefaultConfig StartServer_result
    = map cmd.Stderr errors ++ [cmd.Exit 1].
Proof.
  intros Hn. unfold cmd.Run.
  destruct (String.eqb_spec (cmd.provider flags) "route53") as [Ep | Ep].
  - destruct (String.eqb_spec (cmd.zone_id flags) "") as [Ez | Ez];
      [now eexists [_] |].
    destruct LoadDefaultConfig as [cfg | err]; [| now eexists [_]].
    unfold NewRoute53Provider. apply String.eqb_neq in Ez as Ez'. rewrite Ez'.
    destruct (aws.GetHostedZone cfg (cmd.zone_id flags)) as [name | err] eqn:Eg;
      [| now eexists [_]].
    exfalso. apply Hn. right; right. split; [exact Ep |]. split; [exact Ez |].
    now exists cfg, name.
  - destruct (String.eqb_spec (cmd.provider flags) "none") as [En | En];
      [exfalso; apply Hn; now left |].
    destruct (String.eqb_spec (cmd.provider flags) "") as [Ee | Ee];
      [exfalso; apply Hn; right; now left |].
    now eexists [_; _].
Qed.

(** The command starts the server exactly when the flags and the
    environment are usable: the provider type is none or empty, or it is
    route53 with a zone id, a configuration that loads and a hosted zone
    that is found. Otherwise it writes only to the error output and exits
    with status 1: an unsupported provider type, a missing zone id, a
    failed configuration load or a failed zone lookup never starts a
    server. *)
Theorem Run_starts_server_iff :
  forall (flags : cmd.Flags) (LoadDefaultConfig : aws.Config + error)
         (StartServer_result : string -> option error),
    (starts_server (cmd.Run flags LoadDefaultConfig StartServer_result)
     <-> usable flags LoadDefaultConfig)
    /\ (starts_server (cmd.Run flags LoadDefaultConfig StartServer_result)
        \/ exists errors,
             cmd.Run flags LoadDefaultConfig StartServer_result
             = map cmd.Stderr errors ++ [cmd.Exit 1]).
Proof.
  intros flags cfgres sres.
  assert (Hdec : usable flags cfgres \/ ~ usable flags cfgres).
  { unfold usable.
    destruct (String.eqb_spec (cmd.provider flags) "none"); [now left; left |].
    destruct (String.eqb_spec (cmd.provider flags) ""); [now left; right; left |].
    destruct (String.eqb_spec (cmd.provider flags) "route53") as [Ep|];
      [| right; intros [? | [? | [? _]]]; contradiction].
    destruct (String.eqb_spec (cmd.zone_id flags) "");
      [right; intros [? | [? | (_ & ? & _)]]; contradiction |].
    destruct cfgres as [cfg | err];
      [| right; intros [? | [? | (_ & _ & ? & ? & ? & _)]];
         contradiction || discriminate].
    destruct (aws.GetHostedZone cfg (cmd.zone_id flags)) as [name | err] eqn:Eg.
    - left. right; right. split; [exact Ep |]. split; [assumption |].
      now exists cfg, name.
    - right. intros [? | [? | (_ & _ & cfg' & name & [= <-] & Hg)]];
        try contradiction. congruence. }
  assert (Hstart : usable flags cfgres -> starts_server (cmd.Run flags cfgres sres)).
  { intros Hu. unfold starts_server, cmd.Run.
    destruct Hu as [En | [Ee | (Ep & Ez & cfg & name & -> & Hg)]].
    - rewrite En. simpl. eexists _, _. right; right; left. reflexivity.
    - rewrite Ee. simpl. eexists _, _. right; right; left. reflexivity.
    - rewrite Ep. simpl. apply String.eqb_neq in Ez as Ez'. rewrite Ez'.
      unfold NewRoute53Provider. rewrite Ez', Hg.
      eexists _, _. right; right; left. reflexivity. }
  split.
  - split; [| exact Hstart]. intros (addr & s & Hin).
    destruct Hdec as [Hu | Hn]; [exact Hu | exfalso].
    destruct (Run_unusable flags cfgres sres Hn) as [errors E]. rewrite E in Hin.
    apply in_app_iff in Hin as [Hin | [Hin | []]]; [| discriminate].
    apply in_map_iff in Hin as (? & ? & _). discriminate.
  - destruct Hdec as [Hu | Hn]; [left; now apply Hstart | right].
    exact (Run_unusable flags cfgres sres Hn).
Qed.

(** When the server is started, it listens on the given address, or on
    [:8080] when the flag is empty; it has no provider exactly when none
    was asked for; and a Route53 provider is bound to the zone id of the
    flags and to the zone's name without its trailing dot, and has sent
    nothing yet. *)
Theorem Run_server_configuration :
  forall (flags : cmd.Flags) (LoadDefaultConfig : aws.Config + error)
         (StartServer_result : string -> option error)
         (addr : string) (s : server.Server route53.Provider),
    In (cmd.StartServer addr s) (cmd.Run flags LoadDefaultConfig StartServer_result) ->
    addr <> ""
    /\ (cmd.listen flags <> "" -> addr = cmd.listen flags)
    /\ (cmd.listen flags = "" -> addr = ":8080")
    /\ match server.provider s with
       | None => cmd.provider flags = "none" \/ cmd.provider flags = ""
       | Some p =>
           cmd.provider flags = "route53"
           /\ cmd.zone_id flags <> ""
           /\ route53.zoneID p = cmd.zone_id flags
           /\ route53.sent (route53.client p) = []
           /\ exists cfg name,
               LoadDefaultConfig = inl cfg
               /\ aws.GetHostedZone cfg (cmd.zone_id flags) = inl name
               /\ route53.zoneName p = strip_dot name
       end.
Proof.
  intros flags cfgres sres addr s Hin. unfold cmd.Run in Hin.
  assert (Haddr : forall a, a = (if String.eqb (cmd.listen flags) "" then ":8080"
                                 else cmd.listen flags) ->
                  a <> "" /\ (cmd.listen flags <> "" -> a = cmd.listen flags)
                  /\ (cmd.listen flags = "" -> a = ":8080")).
  { intros a ->. destruct (String.eqb_spec (cmd.listen flags) "") as [E | E].
    - split; [discriminate |]. split; [contradiction | reflexivity].
    - split; [exact E |]. split; [reflexivity | contradiction]. }
  destruct (String.eqb_spec (cmd.provider flags) "route53") as [Ep | Ep].
  - destruct (String.eqb_spec (cmd.zone_id flags) "") as [Ez | Ez].
    { destruct Hin as [E | [E | []]]; discriminate. }
    destruct cfgres as [cfg | err]; [| destruct Hin as [E | [E | []]]; discriminate].
    unfold NewRoute53Provider in Hin. apply String.eqb_neq in Ez as Ez'.
    rewrite Ez' in Hin.
    destruct (aws.GetHostedZone cfg (cmd.zone_id flags)) as [name | err] eqn:Eg;
      [| destruct Hin as [E | [E | []]]; discriminate].
    simpl in Hin. destruct Hin as [E | [E | [E | Hin]]]; try discriminate.
    + injection E as <- <-. destruct (Haddr _ eq_refl) as (H1 & H2 & H3).
      split; [exact H1 |]. split; [exact H2 |]. split; [exact H3 |]. simpl.
      split; [exact Ep |]. split; [exact Ez |]. split; [reflexivity |].
      split; [reflexivity |]. now exists cfg, name.
    + destruct (sres _); simpl in Hin; [destruct Hin as [E | [E | []]]; discriminate |].
      destruct Hin.
  - destruct (String.eqb (cmd.provider flags) "none" || String.eqb (cmd.provider flags) "")
      eqn:En.
    + simpl in Hin. destruct Hin as [E | [E | [E | Hin]]]; try discriminate.
      * injection E as <- <-. destruct (Haddr _ eq_refl) as (H1 & H2 & H3).
        split; [exact H1 |]. split; [exact H2 |]. split; [exact H3 |]. simpl.
        apply orb_true_iff in En. rewrite !String.eqb_eq in En. exact En.
      * destruct (sres _); simpl in Hin; [destruct Hin as [E | [E | []]]; discriminate |].
        destruct Hin.
    + destruct Hin as [E | [E | [E | []]]]; discriminate.
Qed.

Lemma Run_server_configuration_witness :
  In (cmd.StartServer ":8080" (server.NewServer (Some built_provider)))
     (cmd.Run test_flags (inl test_config) (fun _ => None))
  /\ ":8080" <> ""
  /\ (cmd.listen test_flags <> "" -> ":8080" = cmd.listen test_flags)
  /\ (cmd.listen test_flags = "" -> ":8080" = ":8080")
  /\ match server.provider (server.NewServer (Some built_provider)) with
     | None => cmd.provider test_flags = "none" \/ cmd.provider test_flags = ""
     | Some p =>
         cmd.provider test_flags = "route53"
         /\ cmd.zone_id test_flags <> ""
         /\ route53.zoneID p = cmd.zone_id test_flags
         /\ route53.sent (route53.client p) = []
         /\ exists cfg name,
             (inl test_config : aws.Config + error) = inl cfg
             /\ aws.GetHostedZone cfg (cmd.zone_id test_flags) = inl name
             /\ route53.zoneName p = strip_dot name
     end.
Proof.
  assert (Hin : In (cmd.StartServer ":8080" (server.NewServer (Some built_provider)))
                   (cmd.Run test_flags (inl test_config) (fun _ => None))).
  { vm_compute. right; right; left. reflexivity. }
  split; [exact Hin |].
  exact (Run_server_configuration test_flags (inl test_config) (fun _ => None) ":8080"
           (server.NewServer (Some built_provider)) Hin).
Defined.

(** ** More on the handler *)
Section ResponderMore.

Import http server.

Context {P : Type} `{provider.Provider P}.

Lemma provider_stage_status (r : Request) (srv : Server P) (clk : nat -> Z) (user : string) :
  Code (W_w (provider_stage r srv clk user)) = 200%Z.
Proof.
  unfold provider_stage. destruct (provider srv) as [p|]; [| reflexivity].
  now destruct (provider.UpdateRecord p (hostname r) (myip r)) as [[e|] p'].
Qed.

Lemma authorised_status (r : Request) (srv : Server P) (clk : nat -> Z) :
  recognised_agent r -> http.Method r = "GET" -> authorised r ->
  Code (W_w (respond r srv clk)) = 200%Z.
Proof.
  intros Ha Hm Hz. rewrite respond_authorised by assumption.
  destruct (String.eqb (hostname r) ""); [reflexivity |].
  destruct (String.eqb (myip r) ""); [reflexivity |]. apply provider_stage_status.
Qed.

(** Only the statuses 200, 400, 401 and 405 are produced, and each tells
    where the request stopped: 400 means the user agent was not
    recognised, 405 a recognised agent with another method than GET, 401
    a failed authorization after both, and 200 that user agent, method
    and authorization were all accepted. *)
Theorem status_code_meaning :
  forall (r : Request) (srv : Server P) (clk : nat -> Z),
  exists st',
    serve r (start srv clk) = Some st'
    /\ In (Code (W_w st')) [200%Z; 400%Z; 401%Z; 405%Z]
    /\ (Code (W_w st') = 400%Z <-> ~ recognised_agent r)
    /\ (Code (W_w st') = 405%Z <-> recognised_agent r /\ http.Method r <> "GET")
    /\ (Code (W_w st') = 401%Z
        <-> recognised_agent r /\ http.Method r = "GET" /\ ~ authorised r)
    /\ (Code (W_w st') = 200%Z
        <-> recognised_agent r /\ http.Method r = "GET" /\ authorised r).
Proof.
  intros r srv clk. exists (respond r srv clk). split; [apply handler_run |].
  destruct (passes_dec r UserAgentCheck) as [Ha | Ha]; simpl in Ha.
  2:{ rewrite respond_bad_agent by exact Ha. simpl.
      repeat split; try tauto; try discriminate; intros; tauto. }
  destruct (passes_dec r MethodCheck) as [Hm | Hm]; simpl in Hm.
  2:{ rewrite respond_bad_method by assumption. simpl.
      repeat split; try tauto; try discriminate; intros; tauto. }
  destruct (passes_dec r AuthCheck) as [Hz | Hz]; simpl in Hz.
  2:{ destruct (respond_unauthorised r srv clk Ha Hm Hz) as (? & ? & ? & ->). simpl.
      repeat split; try tauto; try discriminate; intros; tauto. }
  rewrite (authorised_status r srv clk Ha Hm Hz). simpl.
  repeat split; try tauto; try discriminate; intros; tauto.
Qed.

(** The provider is called at most once per request, with the hostname
    and the ip of the request; it is called exactly when the request is
    valid and a provider is configured, and the server then holds the
    provider as the call left it. *)
Theorem provider_called_once_when_valid :
  forall (r : Request) (srv : Server P) (clk : nat -> Z),
  exists st',
    serve r (start srv clk) = Some st'
    /\ (W_calls st' = [] \/ W_calls st' = [(hostname r, myip r)])
    /\ (W_calls st' <> [] <-> valid r /\ provider srv <> None)
    /\ (forall p, valid r -> provider srv = Some p ->
          W_s st'
          = {| provider := Some (snd (provider.UpdateRecord p (hostname r) (myip r))) |}).
Proof.
  intros r srv clk. exists (respond r srv clk). split; [apply handler_run |].
  destruct (validation_cases r) as [Hv | [c Hc]].
  - rewrite (respond_valid r srv clk Hv). unfold provider_stage.
    destruct (provider srv) as [p|] eqn:Ep.
    + destruct (provider.UpdateRecord p (hostname r) (myip r)) as [[e|] p'] eqn:Eu;
        simpl; (split; [now right |]); (split; [split; [now intros _ | discriminate] |]);
        intros p0 _ [= <-]; now rewrite Eu.
    + simpl. split; [now left |]. split; [| discriminate].
      split; [contradiction | intros [_ Hn]; contradiction].
  - destruct (respond_first_failing r srv clk c Hc)
      as (msg & args & user & fqdn & ip & e & -> & _). simpl.
    split; [now left |]. split.
    + split; [contradiction | intros [Hv _]].
      destruct (first_failing_not_valid r c Hc Hv).
    + intros p Hv. destruct (first_failing_not_valid r c Hc Hv).
Qed.

(** When the provider fails, its error message goes to the logs (the
    request log and an error record) and not to the client, who sees only
    dnserr. *)
Theorem provider_error_logged_not_shown :
  forall (r : Request) (srv : Server P) (clk : nat -> Z) (p p' : P) (e : error),
    valid r -> provider srv = Some p ->
    provider.UpdateRecord p (hostname r) (myip r) = (Some e, p') ->
    exists st' object,
      serve r (start srv clk) = Some st'
      /\ Body (W_w st') = line MsgDNSErr
      /\ W_klog st'
         = [ {| klog.msg := "DynDNS request";
                klog.keysAndValues := [("request", object)] |} ]
      /\ In ("error_message", json.Str ("provider error: " +:+ e)) object
      /\ In (slog_record r slog.LevelError "failed to update DNS record" [("error", e)])
            (W_slog st').
Proof.
  intros r srv clk p p' e Hv Hp Hu. rewrite handler_run, (respond_valid r srv clk Hv).
  unfold provider_stage. rewrite Hp, Hu.
  eexists _, _. split; [reflexivity |]. split; [reflexivity |].
  split; [reflexivity |]. split.
  - unfold log_object. rewrite !in_app_iff. simpl. tauto.
  - simpl. tauto.
Qed.

Lemma log_object_no_identity (r : Request) (clk : nat -> Z) (status : Z)
  (message errorMsg : string) (key : string) (v : json.Value) :
  In key ["username"; "fqdn"; "ip"] ->
  ~ In (key, v) (log_object r clk "" "" "" status message errorMsg).
Proof.
  intros Hk. unfold log_object, omitempty.
  destruct (String.eqb errorMsg ""); simpl;
    destruct Hk as [<- | [<- | [<- | []]]]; intuition discriminate.
Qed.

(** Until user agent, method and authorization have all been accepted,
    the request log names no user and none of the parameters: it has no
    username, fqdn or ip field. *)
Theorem no_identity_logged_before_auth :
  forall (r : Request) (srv : Server P) (clk : nat -> Z),
    ~ (recognised_agent r /\ http.Method r = "GET" /\ authorised r) ->
    exists st' object,
      serve r (start srv clk) = Some st'
      /\ W_klog st'
         = [ {| klog.msg := "DynDNS request";
                klog.keysAndValues := [("request", object)] |} ]
      /\ forall key v, In key ["username"; "fqdn"; "ip"] -> ~ In (key, v) object.
Proof.
  intros r srv clk Hn. rewrite handler_run.
  destruct (validation_cases r) as [Hv | [c Hc]].
  { destruct Hn. repeat split;
      [exact (Hv UserAgentCheck) | exact (Hv MethodCheck) | exact (Hv AuthCheck)]. }
  destruct (respond_first_failing r srv clk c Hc)
    as (msg & args & user & fqdn & ip & e & -> & Hu).
  destruct (rank c <? 3) eqn:Er.
  - injection Hu as -> -> ->. eexists _, _. split; [reflexivity |].
    split; [reflexivity |]. intros key v. apply log_object_no_identity.
  - apply Nat.ltb_ge in Er. destruct Hc as [_ He]. destruct Hn. repeat split.
    + exact (He UserAgentCheck ltac:(simpl; lia)).
    + exact (He MethodCheck ltac:(simpl; lia)).
    + exact (He AuthCheck ltac:(simpl; lia)).
Qed.

(** The response, the calls to the provider and the provider's state
    depend only on five inputs of the request: the User-Agent header, the
    method, the Authorization header and the hostname and myip
    parameters. Other headers and parameters and the remote address have
    no influence. *)
Theorem response_depends_on_five_inputs :
  forall (r1 r2 : Request) (srv : Server P) (clk1 clk2 : nat -> Z),
    user_agent r1 = user_agent r2 ->
    http.Method r1 = http.Method r2 ->
    authorization r1 = authorization r2 ->
    hostname r1 = hostname r2 ->
    myip r1 = myip r2 ->
    exists st1 st2,
      serve r1 (start srv clk1) = Some st1
      /\ serve r2 (start srv clk2) = Some st2
      /\ response st1 = response st2
      /\ W_calls st1 = W_calls st2
      /\ W_s st1 = W_s st2.
Proof.
  intros r1 r2 srv clk1 clk2 Hua Hm Hau Hh Hi.
  exists (respond r1 srv clk1), (respond r2 srv clk2).
  split; [apply handler_run |]. split; [apply handler_run |].
  unfold respond, provider_stage. rewrite <- Hua, <- Hm, <- Hau, <- Hh, <- Hi.
  destruct (String.eqb (user_agent r1) ""
            || negb (GoStrings.Contains (user_agent r1) validUserAgent));
    [now repeat split |].
  destruct (negb (String.eqb (http.Method r1) MethodGet)); [now repeat split |].
  destruct (negb (GoStrings.HasPrefix (authorization r1) "Basic "));
    [now repeat split |].
  destruct (base64.DecodeString _) as [payload|]; [| now repeat split].
  destruct (bad_credentials payload); [now repeat split |].
  destruct (String.eqb (hostname r1) ""); [now repeat split |].
  destruct (String.eqb (myip r1) ""); [now repeat split |].
  destruct (provider srv) as [p|]; [| now repeat split].
  destruct (provider.UpdateRecord p (hostname r1) (myip r1)) as [[e|] p'];
    now repeat split.
Qed.

End ResponderMore.

Import http server.

Lemma good_request_valid : valid good_request.
Proof.
  intros []; simpl.
  - exists "", "". reflexivity.
  - reflexivity.
  - exists "dXNlcjpwYXNz". split; reflexivity.
  - vm_compute. discriminate.
  - vm_compute. discriminate.
Qed.

Lemma provider_error_logged_not_shown_witness :
  exists st' object,
    serve good_request (start (NewServer (Some failingProvider)) test_clock) = Some st'
    /\ Body (W_w st') = line MsgDNSErr
    /\ W_klog st'
       = [ {| klog.msg := "DynDNS request";
              klog.keysAndValues := [("request", object)] |} ]
    /\ In ("error_message", json.Str ("provider error: " +:+ "boom")) object
    /\ In (slog_record good_request slog.LevelError "failed to update DNS record"
             [("error", "boom")])
          (W_slog st').
Proof.
  apply (provider_error_logged_not_shown good_request (NewServer (Some failingProvider))
           test_clock failingProvider
           {| updateCalled := true; updateError := Some "boom" |} "boom").
  - exact good_request_valid.
  - reflexivity.
  - reflexivity.
Defined.

Lemma no_identity_logged_before_auth_witness :
  exists st' object,
    serve bad_auth_request (start (NewServer (Some mockProvider)) test_clock) = Some st'
    /\ W_klog st'
       = [ {| klog.msg := "DynDNS request";
              klog.keysAndValues := [("request", object)] |} ]
    /\ forall key v, In key ["username"; "fqdn"; "ip"] -> ~ In (key, v) object.
Proof.
  apply (no_identity_logged_before_auth bad_auth_request (NewServer (Some mockProvider))
           test_clock).
  intros (_ & _ & Hz). revert Hz. rewrite <- auth_check.
  intros (_ & payload & Hd & Hb).
  vm_compute in Hd. injection Hd as <-. vm_compute in Hb. discriminate.
Defined.

Lemma response_depends_on_five_inputs_witness :
  exists st1 st2,
    serve good_request (start (NewServer (Some mockProvider)) test_clock) = Some st1
    /\ serve good_request_extra (start (NewServer (Some mockProvider)) (fun _ => 0%Z))
       = Some st2
    /\ response st1 = response st2
    /\ W_calls st1 = W_calls st2
    /\ W_s st1 = W_s st2.
Proof.
  apply (response_depends_on_five_inputs good_request good_request_extra
           (NewServer (Some mockProvider)) test_clock (fun _ => 0%Z));
    reflexivity.
Defined.

(** ** The handler with the providers of the repository *)

(** With the test double of [server_test.go], not called before: after
    the request the double records a call exactly when the request was
    valid, and the error it is set to return is unchanged. *)
Theorem mock_called_iff_valid :
  forall (r : Request) (m : MockProvider) (clk : nat -> Z),
    updateCalled m = false ->
    exists st' m',
      serve r (start (NewServer (Some m)) clk) = Some st'
      /\ provider (W_s st') = Some m'
      /\ (updateCalled m' = true <-> valid r)
      /\ updateError m' = updateError m.
Proof.
  intros r m clk Hm. rewrite handler_run.
  destruct (validation_cases r) as [Hv | [c Hc]].
  - rewrite (respond_valid r _ clk Hv). unfold provider_stage. simpl.
    destruct (updateError m) as [e|] eqn:Ee; eexists _, _;
      (split; [reflexivity |]); (split; [reflexivity |]); simpl; now repeat split.
  - destruct (respond_first_failing r (NewServer (Some m)) clk c Hc)
      as (msg & args & user & fqdn & ip & e & -> & _).
    eexists _, m. split; [reflexivity |]. split; [reflexivity |].
    split; [| reflexivity]. rewrite Hm. split; [discriminate |].
    intros Hv. destruct (first_failing_not_valid r c Hc Hv).
Qed.

Lemma mock_called_iff_valid_witness :
  exists st' m',
    serve good_request (start (NewServer (Some mockProvider)) test_clock) = Some st'
    /\ provider (W_s st') = Some m'
    /\ (updateCalled m' = true <-> valid good_request)
    /\ updateError m' = updateError mockProvider.
Proof.
  apply (mock_called_iff_valid good_request mockProvider test_clock). reflexivity.
Defined.

(** With the Route53 provider: a valid request for a name the zone check
    rejects is answered dnserr and nothing is sent upstream; a valid
    request for a name in the zone sends exactly one UPSERT for the
    hostname and the ip of the request, and is answered good with the ip
    when the upstream accepts it and dnserr when it does not. *)
Theorem handler_updates_only_inside_zone :
  forall (r : Request) (p : route53.Provider) (clk : nat -> Z),
    valid r ->
    exists st' p',
      serve r (start (NewServer (Some p)) clk) = Some st'
      /\ provider (W_s st') = Some p'
      /\ (route53.validateFQDN p (hostname r) <> None ->
          response st' = (200%Z, line MsgDNSErr)
          /\ route53.sent (route53.client p') = route53.sent (route53.client p))
      /\ (route53.validateFQDN p (hostname r) = None ->
          route53.sent (route53.client p')
          = route53.sent (route53.client p)
            ++ [upsert_A (route53.zoneID p) (hostname r) (myip r)]
          /\ (route53.upstream (route53.client p)
                (upsert_A (route53.zoneID p) (hostname r) (myip r)) = None ->
              response st' = (200%Z, line (MsgGood +:+ " " +:+ myip r)))
          /\ (route53.upstream (route53.client p)
                (upsert_A (route53.zoneID p) (hostname r) (myip r)) <> None ->
              response st' = (200%Z, line MsgDNSErr))).
Proof.
  intros r p clk Hv. rewrite handler_run, (respond_valid r _ clk Hv).
  pose proof (Hv HostnameCheck) as Hh. pose proof (Hv MyipCheck) as Hi.
  simpl in Hh, Hi. apply String.eqb_neq in Hh, Hi.
  unfold provider_stage. simpl. unfold route53.UpdateRecord. rewrite Hh, Hi. simpl.
  destruct (route53.validateFQDN p (hostname r)) as [e|] eqn:Ev.
  - eexists _, _. split; [reflexivity |]. split; [reflexivity |].
    split; [now intros _ | discriminate].
  - unfold route53.ChangeResourceRecordSets.
    fold (upsert_A (route53.zoneID p) (hostname r) (myip r)).
    destruct (route53.upstream (route53.client p)
                (upsert_A (route53.zoneID p) (hostname r) (myip r))) as [e|] eqn:Eu;
      eexists _, _; (split; [reflexivity |]); (split; [reflexivity |]);
      (split; [contradiction |]); intros _; simpl;
      (split; [reflexivity |]);
      split; intros Hx; first [reflexivity | discriminate | now destruct Hx].
Qed.

Lemma handler_updates_only_inside_zone_witness :
  exists st' p',
    serve good_request (start (NewServer (Some (zone_provider "blahonga.me"))) test_clock)
    = Some st'
    /\ provider (W_s st') = Some p'
    /\ (route53.validateFQDN (zone_provider "blahonga.me") (hostname good_request) <> None ->
        response st' = (200%Z, line MsgDNSErr)
        /\ route53.sent (route53.client p')
           = route53.sent (route53.client (zone_provider "blahonga.me")))
    /\ (route53.validateFQDN (zone_provider "blahonga.me") (hostname good_request) = None ->
        route53.sent (route53.client p')
        = route53.sent (route53.client (zone_provider "blahonga.me"))
          ++ [upsert_A (route53.zoneID (zone_provider "blahonga.me"))
                (hostname good_request) (myip good_request)]
        /\ (route53.upstream (route53.client (zone_provider "blahonga.me"))
              (upsert_A (route53.zoneID (zone_provider "blahonga.me"))
                 (hostname good_request) (myip good_request)) = None ->
            response st' = (200%Z, line (MsgGood +:+ " " +:+ myip good_request)))
        /\ (route53.upstream (route53.client (zone_provider "blahonga.me"))
              (upsert_A (route53.zoneID (zone_provider "blahonga.me"))
                 (hostname good_request) (myip good_request)) <> None ->
            response st' = (200%Z, line MsgDNSErr))).
Proof.
  apply (handler_updates_only_inside_zone good_request (zone_provider "blahonga.me")
           test_clock).
  exact good_request_valid.
Defined.
